(** * Verification of the media-acquisition scripts of PFI-PENAL-2025

    Shallow embedding of
    - [descarga_de_videos/descarga_de_videos.py]  (module [Descarga])
    - [descarga_de_videos/download.py]            (module [Download])

    Python [str] values are modelled as [string] (sequences of bytes, UTF-8
    for the non-ASCII message prefixes); [str.lower] and [str.strip] act on
    the ASCII range.  Python [int] is [Z].  Paths follow [posixpath].
    Exceptions deriving from [Exception] are the [Raise] results of the
    [result] type; the payload is the text of [str(e)].                      *)

From Stdlib Require Import ZArith List Bool Lia Ascii String DecimalString.
Import ListNotations.
Open Scope string_scope.

(** ** Python strings *)

Module PyStr.

Definition lower_char (c : ascii) : ascii :=
  let n := nat_of_ascii c in
  if (65 <=? n)%nat && (n <=? 90)%nat then ascii_of_nat (n + 32) else c.

(** [s.lower()] *)
Fixpoint lower (s : string) : string :=
  match s with
  | EmptyString => EmptyString
  | String c s' => String (lower_char c) (lower s')
  end.

(** [s.startswith(t)] *)
Definition startswith (t s : string) : bool := String.prefix t s.

(** [t in s] *)
Fixpoint contains (t s : string) : bool :=
  String.prefix t s ||
  match s with
  | EmptyString => false
  | String _ s' => contains t s'
  end.

(** [s.endswith(t)] *)
Fixpoint endswith (t s : string) : bool :=
  String.eqb t s ||
  match s with
  | EmptyString => false
  | String _ s' => endswith t s'
  end.

(** [s.rfind(c)] for a one-character needle: index of the last occurrence,
    [-1] when there is none. *)
Fixpoint rfind (c : ascii) (s : string) : Z :=
  match s with
  | EmptyString => (-1)%Z
  | String a s' =>
      let r := rfind c s' in
      if (0 <=? r)%Z then (r + 1)%Z
      else if Ascii.eqb a c then 0%Z else (-1)%Z
  end.

(** [s.find(c)] for a one-character needle. *)
Fixpoint find (c : ascii) (s : string) : Z :=
  match s with
  | EmptyString => (-1)%Z
  | String a s' =>
      if Ascii.eqb a c then 0%Z
      else let r := find c s' in if (0 <=? r)%Z then (r + 1)%Z else (-1)%Z
  end.

Fixpoint take (n : nat) (s : string) : string :=
  match n, s with
  | S n', String a s' => String a (take n' s')
  | _, _ => EmptyString
  end.

Fixpoint drop (n : nat) (s : string) : string :=
  match n, s with
  | S n', String _ s' => drop n' s'
  | _, _ => s
  end.

(** [s[:i]] and [s[i:]] for an index [i >= 0]. *)
Definition slice_to (i : Z) (s : string) : string := take (Z.to_nat i) s.
Definition slice_from (i : Z) (s : string) : string := drop (Z.to_nat i) s.

(** [s.rstrip(c)] for a one-character set. *)
Fixpoint rstrip (c : ascii) (s : string) : string :=
  match s with
  | EmptyString => EmptyString
  | String a s' =>
      match rstrip c s' with
      | EmptyString => if Ascii.eqb a c then EmptyString else String a EmptyString
      | r => String a r
      end
  end.

(** [s == c * len(s)] *)
Fixpoint all_char (c : ascii) (s : string) : bool :=
  match s with
  | EmptyString => true
  | String a s' => Ascii.eqb a c && all_char c s'
  end.

(** ASCII members of [str.isspace]. *)
Definition is_space (c : ascii) : bool :=
  let n := nat_of_ascii c in
  ((9 <=? n)%nat && (n <=? 13)%nat) || ((28 <=? n)%nat && (n <=? 32)%nat).

Fixpoint lstrip_ws (s : string) : string :=
  match s with
  | EmptyString => EmptyString
  | String a s' => if is_space a then lstrip_ws s' else s
  end.

Fixpoint rstrip_ws (s : string) : string :=
  match s with
  | EmptyString => EmptyString
  | String a s' =>
      match rstrip_ws s' with
      | EmptyString => if is_space a then EmptyString else String a EmptyString
      | r => String a r
      end
  end.

(** [s.strip()] *)
Definition strip (s : string) : string := rstrip_ws (lstrip_ws s).

(** [s.replace(a, b)] for one-character [a] and [b]. *)
Fixpoint replace_char (a b : ascii) (s : string) : string :=
  match s with
  | EmptyString => EmptyString
  | String c s' => String (if Ascii.eqb c a then b else c) (replace_char a b s')
  end.

(** [s.split(c)] for a one-character separator. *)
Fixpoint split_on (c : ascii) (s : string) : list string :=
  match s with
  | EmptyString => [EmptyString]
  | String a s' =>
      if Ascii.eqb a c then EmptyString :: split_on c s'
      else match split_on c s' with
           | [] => [String a EmptyString]
           | h :: t => String a h :: t
           end
  end.

(** [str(n)] for an [int]. *)
Definition str_of_int (n : Z) : string := NilZero.string_of_int (Z.to_int n).

(** Truth value of a string: empty is falsy. *)
Definition truthy (s : string) : bool :=
  match s with EmptyString => false | _ => true end.

End PyStr.

(** ** [posixpath] *)

Module PosixPath.
Import PyStr.

Definition sep : ascii := "/"%char.
Definition extsep : ascii := "."%char.

(** [os.path.join(a, b)] *)
Definition join (a b : string) : string :=
  if startswith "/" b then b
  else if negb (truthy a) || endswith "/" a then a ++ b
  else a ++ "/" ++ b.

(** [os.path.split(p)] *)
Definition split (p : string) : string * string :=
  let i := (rfind sep p + 1)%Z in
  let head := slice_to i p in
  let tail := slice_from i p in
  let head :=
    if truthy head && negb (all_char sep head) then rstrip sep head else head in
  (head, tail).

(** [os.path.dirname(p)] and [os.path.basename(p)] *)
Definition dirname (p : string) : string := fst (split p).
Definition basename (p : string) : string := slice_from (rfind sep p + 1) p.

(** The loop of [genericpath._splitext] that skips leading dots:
    [filenameIndex] runs over the [n] positions before [dotIndex]. *)
Fixpoint splitext_scan (p : string) (filenameIndex n : nat) : bool :=
  match n with
  | O => false
  | S n' =>
      match String.get filenameIndex p with
      | Some c =>
          if negb (Ascii.eqb c extsep) then true
          else splitext_scan p (S filenameIndex) n'
      | None => true
      end
  end.

(** [os.path.splitext(p)] *)
Definition splitext (p : string) : string * string :=
  let sepIndex := rfind sep p in
  let dotIndex := rfind extsep p in
  if (sepIndex <? dotIndex)%Z
     && splitext_scan p (Z.to_nat (sepIndex + 1)) (Z.to_nat (dotIndex - (sepIndex + 1)))
  then (slice_to dotIndex p, slice_from dotIndex p)
  else (p, EmptyString).

End PosixPath.

(** ** Python values, dictionaries and exceptions *)

Module Py.

(** [str(e)] of a raised [Exception]. *)
Definition exn := string.

Inductive result (A : Type) : Type :=
| Return (a : A)
| Raise (e : exn).
Arguments Return {A} a.
Arguments Raise {A} e.

Definition bind {A B : Type} (m : result A) (k : A -> result B) : result B :=
  match m with
  | Return a => k a
  | Raise e => Raise e
  end.

#[local] Set Warnings "-register-all".

Inductive pyval : Type :=
| VNone
| VBool (b : bool)
| VInt (n : Z)
| VStr (s : string)
| VList (l : list pyval)
| VTuple (l : list pyval)
| VDict (d : list (string * pyval))
| VFun (f : Z -> Z).

(** A [dict] with string keys; only lookups and item assignment are used. *)
Definition dict := list (string * pyval).

Fixpoint dict_get (k : string) (d : dict) : option pyval :=
  match d with
  | [] => None
  | (k', v) :: d' => if String.eqb k k' then Some v else dict_get k d'
  end.

(** [d[k] = v] *)
Fixpoint dict_set (k : string) (v : pyval) (d : dict) : dict :=
  match d with
  | [] => [(k, v)]
  | (k', v') :: d' =>
      if String.eqb k k' then (k, v) :: d' else (k', v') :: dict_set k v d'
  end.

(** [k in d] *)
Definition dict_mem (k : string) (d : dict) : bool :=
  match dict_get k d with Some _ => true | None => false end.

(** [v == s] for a string literal [s]. *)
Definition val_eq_str (v : option pyval) (s : string) : bool :=
  match v with
  | Some (VStr s') => String.eqb s' s
  | _ => false
  end.

End Py.

(** ** The file system as the scripts observe it, and [glob.glob] *)

Module Glob.
Import PyStr PosixPath.

(** What the operating system answers in one state of the disk.
    - [glob1 d pat]: the names of directory [d] ([""] is the current
      directory) that [fnmatch] the pattern [pat], in the order in which
      [os.scandir] lists them, hidden names dropped unless [pat] starts
      with a dot (the body of [glob._glob1]);
    - [glob_dirs d]: the directories matched by a directory pattern [d]
      that itself has wildcards (the recursive call of [glob._iglob]);
    - [getsize p]: [os.path.getsize], [None] when it raises [OSError];
    - [which c]: [shutil.which]. *)
Record filesystem : Type := {
  glob1 : string -> string -> list string;
  glob_dirs : string -> list string;
  lexists : string -> bool;
  isdir : string -> bool;
  path_exists : string -> bool;
  getsize : string -> option Z;
  which : string -> option string
}.

(** [glob.has_magic]: the pattern has one of the characters [*?[]. *)
Definition has_magic (s : string) : bool :=
  contains "*" s || contains "?" s || contains "[" s.

(** [glob._glob0] *)
Definition glob0 (fs : filesystem) (dirname basename : string) : list string :=
  if truthy basename then
    if lexists fs (join dirname basename) then [basename] else []
  else
    if isdir fs dirname then [basename] else [].

(** [glob.glob(pathname)] (not recursive, hidden files not included). *)
Definition glob (fs : filesystem) (pathname : string) : list string :=
  let '(dirname, basename) := split pathname in
  if negb (has_magic pathname) then
    if truthy basename then
      if lexists fs pathname then [pathname] else []
    else
      if isdir fs dirname then [pathname] else []
  else if negb (truthy dirname) then
    glob1 fs "" basename
  else
    let dirs :=
      if negb (String.eqb dirname pathname) && has_magic dirname
      then glob_dirs fs dirname
      else [dirname] in
    let glob_in_dir := if has_magic basename then glob1 fs else glob0 fs in
    flat_map (fun d => map (join d) (glob_in_dir d basename)) dirs.

End Glob.

(** ** The world: disk, engine calls, memo table, and the monad of the scripts *)

Module World.
Import Py Glob.

(** The calls made to the media-fetch engine ([yt_dlp.YoutubeDL]). *)
Inductive engine_call : Type :=
| CallOpen (ydl_opts : dict)
| CallExtractInfo (url : string)
| CallDownload (url : string)
| CallClose.

(** The table of [functools.lru_cache] around [get_url_info]: key (the
    [url] argument itself) and cached result, most recently used first. *)
Definition lru_table : Type := list (string * (bool * dict)).

Record world : Type := {
  fs : filesystem;
  calls : list engine_call;
  url_info_cache : lru_table
}.

Definition set_fs (f : filesystem) (w : world) : world :=
  {| fs := f; calls := calls w; url_info_cache := url_info_cache w |}.

Definition set_cache (c : lru_table) (w : world) : world :=
  {| fs := fs w; calls := calls w; url_info_cache := c |}.

Definition log (c : engine_call) (w : world) : world :=
  {| fs := fs w; calls := calls w ++ [c]; url_info_cache := url_info_cache w |}.

(** The behaviour of everything outside the scripts.  Each answer may
    depend on the whole world, so on the disk and on what was called before.
    [netloc_ok] stands for the checks of the network location that
    [urllib.parse.urlsplit] makes beyond bracket matching (NFKC characters,
    bracketed host syntax), which vary with the interpreter. *)
Record runtime : Type := {
  os_makedirs : filesystem -> string -> result filesystem;
  ydl_open : world -> dict -> result unit;
  ydl_extract_info : world -> dict -> string -> result (option dict);
  ydl_download : world -> dict -> string -> filesystem * result unit;
  ydl_close : world -> result unit;
  now_isoformat : world -> string;
  netloc_ok : string -> bool
}.

(** State and exception monad. *)
Definition M (A : Type) : Type := world -> world * result A.

Definition ret {A : Type} (a : A) : M A := fun w => (w, Return a).
Definition raise {A : Type} (e : exn) : M A := fun w => (w, Raise e).

Definition mbind {A B : Type} (m : M A) (k : A -> M B) : M B :=
  fun w =>
    match m w with
    | (w', Return a) => k a w'
    | (w', Raise e) => (w', Raise e)
    end.

(** [try: m  except Exception as e: h e] *)
Definition try_except {A : Type} (m : M A) (h : exn -> M A) : M A :=
  fun w =>
    match m w with
    | (w', Return a) => (w', Return a)
    | (w', Raise e) => h e w'
    end.

Definition read_fs {A : Type} (f : filesystem -> A) : M A :=
  fun w => (w, Return (f (fs w))).

Definition lift_fs {A : Type} (f : filesystem -> result A) : M A :=
  fun w => (w, f (fs w)).

Section Engine.
Variable rt : runtime.

(** [os.makedirs(d, exist_ok=True)] *)
Definition makedirs (d : string) : M unit :=
  fun w =>
    match os_makedirs rt (fs w) d with
    | Return fs' => (set_fs fs' w, Return tt)
    | Raise e => (w, Raise e)
    end.

Definition extract_info (ydl_opts : dict) (url : string) : M (option dict) :=
  fun w => (log (CallExtractInfo url) w, ydl_extract_info rt w ydl_opts url).

Definition download (ydl_opts : dict) (url : string) : M unit :=
  fun w =>
    let '(fs', r) := ydl_download rt w ydl_opts url in
    (log (CallDownload url) (set_fs fs' w), r).

(** [with YoutubeDL(ydl_opts) as ydl: body]: the constructor may raise;
    [__exit__] runs however the body ends and an exception it raises
    replaces the outcome of the body. *)
Definition with_YoutubeDL {A : Type} (ydl_opts : dict) (body : M A) : M A :=
  fun w =>
    match ydl_open rt w ydl_opts with
    | Raise e => (log (CallOpen ydl_opts) w, Raise e)
    | Return _ =>
        let '(w1, r) := body (log (CallOpen ydl_opts) w) in
        match ydl_close rt w1 with
        | Raise e => (log CallClose w1, Raise e)
        | Return _ => (log CallClose w1, r)
        end
    end.

End Engine.

End World.

Declare Scope py_scope.
Delimit Scope py_scope with py.
Notation "x <- m ;; k" := (World.mbind m (fun x => k))
  (at level 61, m at next level, right associativity) : py_scope.
Notation "m ;;; k" := (World.mbind m (fun _ => k))
  (at level 61, right associativity) : py_scope.

(** ** descarga_de_videos.py *)

Module Descarga.
Import PyStr PosixPath Py Glob World.
Local Open Scope py_scope.

Definition VALID_FINAL_EXTS : list string :=
  [".mp4"; ".mkv"; ".webm"; ".mov"; ".m4v"; ".mp3"; ".aac"; ".opus"; ".m4a"].

Definition TEMP_EXT_CONTAINS : list string :=
  [".part"; ".ytdl"; ".temp"; ".tmp"].

(** [ext in VALID_FINAL_EXTS] *)
Definition in_set (x : string) (l : list string) : bool :=
  existsb (String.eqb x) l.

Definition ffmpeg_available (f : filesystem) : bool :=
  match which f "ffmpeg" with Some _ => true | None => false end.

(** Truth value of an [Optional[str]]. *)
Definition opt_truthy (o : option string) : bool :=
  match o with Some s => truthy s | None => false end.

Definition opt_val (o : option string) : pyval :=
  match o with Some s => VStr s | None => VNone end.

(** The three [retry_sleep_functions] lambdas. *)
Definition retry_sleep_http (n : Z) : Z := Z.min (5 * n) 30.
Definition retry_sleep_fragment (n : Z) : Z := Z.min (2 * n) 10.
Definition retry_sleep_extractor (n : Z) : Z := Z.min (2 * n) 10.

Definition retry_sleep_functions : dict :=
  [("http", VFun retry_sleep_http);
   ("fragment", VFun retry_sleep_fragment);
   ("extractor", VFun retry_sleep_extractor)].

Definition USER_AGENT : string :=
  "Mozilla/5.0 (Windows NT 10.0; Win64; x64) " ++
  "AppleWebKit/537.36 (KHTML, like Gecko) " ++
  "Chrome/124.0 Safari/537.36".

Section WithRuntime.
Variable rt : runtime.

Definition build_ydl_opts (output_dir filename_no_ext : string)
    (browser profile cookie_file : option string)
    (want_max_quality_mp4 : bool) : M dict :=
  makedirs rt output_dir ;;;
  let outtmpl := join output_dir (filename_no_ext ++ ".%(ext)s") in
  have_ffmpeg <- read_fs ffmpeg_available ;;
  let '(fmt, postprocessors, merge_out) :=
    if want_max_quality_mp4 && have_ffmpeg then
      ("bestvideo*+bestaudio/best",
       [VDict [("key", VStr "FFmpegVideoRemuxer"); ("preferedformat", VStr "mp4")];
        VDict [("key", VStr "FFmpegVideoConvertor"); ("preferedformat", VStr "mp4")]],
       Some "mp4")
    else ("best", [], None) in
  let ydl_opts : dict :=
    [("format", VStr fmt);
     ("noplaylist", VBool true);
     ("ignoreerrors", VBool false);
     ("retries", VInt 10);
     ("fragment_retries", VInt 10);
     ("concurrent_fragment_downloads", VInt 4);
     ("outtmpl", VStr outtmpl);
     ("paths", VDict [("home", VStr output_dir)]);
     ("http_headers", VDict [("User-Agent", VStr USER_AGENT)]);
     ("retry_sleep_functions", VDict retry_sleep_functions);
     ("quiet", VBool false);
     ("no_warnings", VBool false)] in
  let ydl_opts :=
    match postprocessors with
    | [] => ydl_opts
    | _ => dict_set "postprocessors" (VList postprocessors) ydl_opts
    end in
  let ydl_opts :=
    if opt_truthy merge_out
    then dict_set "merge_output_format" (opt_val merge_out) ydl_opts
    else ydl_opts in
  if opt_truthy cookie_file then
    let cf := match cookie_file with Some c => c | None => "" end in
    cookie_exists <- read_fs (fun f => path_exists f cf) ;;
    if negb cookie_exists
    then raise ("Cookie file no encontrado: " ++ cf)
    else ret (dict_set "cookiefile" (VStr cf) ydl_opts)
  else if opt_truthy browser then
    ret (dict_set "cookiesfrombrowser"
           (VTuple [opt_val browser; opt_val profile; VNone]) ydl_opts)
  else ret ydl_opts.

End WithRuntime.

(** One iteration of the loop of [find_existing_asset]: [Return true] when
    the path is returned, [Return false] when the loop goes on. *)
Definition asset_check (f : filesystem) (path : string) : result bool :=
  let '(_, ext) := splitext path in
  if existsb (fun t => contains t (lower path)) TEMP_EXT_CONTAINS then
    Return false
  else if in_set (lower ext) VALID_FINAL_EXTS then
    match getsize f path with
    | Some n => Return (0 <? n)%Z
    | None => Raise "OSError"
    end
  else Return false.

Fixpoint first_asset (f : filesystem) (paths : list string)
  : result (option string) :=
  match paths with
  | [] => Return None
  | path :: rest =>
      match asset_check f path with
      | Raise e => Raise e
      | Return true => Return (Some path)
      | Return false => first_asset f rest
      end
  end.

Definition find_existing_asset (f : filesystem) (output_dir stem : string)
  : result (option string) :=
  let pattern := join output_dir (stem ++ ".*") in
  first_asset f (glob f pattern).

(** [a or b] on an [Optional[str]] and a [str]. *)
Definition or_else (a : option string) (b : string) : string :=
  match a with
  | Some s => if truthy s then s else b
  | None => b
  end.

Definition ensure_mp4_final_path (f : filesystem) (path : string)
  : result string :=
  let '(base, _) := splitext path in
  if path_exists f path then Return path
  else
    let folder := if truthy (dirname path) then dirname path else "." in
    let stem := basename base in
    bind (find_existing_asset f folder stem) (fun r => Return (or_else r path)).

Definition filesize (f : filesystem) (path : string) : option Z :=
  getsize f path.

(** Truth value of an [Optional[int]]. *)
Definition size_truthy (o : option Z) : bool :=
  match o with Some n => negb (n =? 0)%Z | None => false end.

(** [(status, message, final_path, size_bytes)] *)
Definition outcome : Type := string * string * option string * option Z.

Definition status_of (o : outcome) : string := fst (fst (fst o)).
Definition message_of (o : outcome) : string := snd (fst (fst o)).
Definition final_path_of (o : outcome) : option string := snd (fst o).
Definition size_of (o : outcome) : option Z := snd o.

Section WithRuntime.
Variable rt : runtime.

(** The body of the [with] statement of [download_one]: [Some o] when it
    returns [o], [None] when control reaches its end. *)
Definition fetch_body (url : string) (ydl_opts : dict) : M (option outcome) :=
  info <- extract_info rt ydl_opts url ;;
  match info with
  | None =>
      ret (Some ("ERROR", "❌ No se pudo extraer info: " ++ url, None, None))
  | Some _ =>
      download rt ydl_opts url ;;;
      ret None
  end.

(** The [try] statement of [download_one]. *)
Definition fetching (url : string) (ydl_opts : dict) : M (option outcome) :=
  try_except
    (with_YoutubeDL rt ydl_opts (fetch_body url ydl_opts))
    (fun e =>
       ret (Some ("ERROR", "❌ Error descargando " ++ url ++ ": " ++ e, None, None))).

Definition download_one (url output_dir final_stem : string) (ydl_opts : dict)
  : M outcome :=
  makedirs rt output_dir ;;;
  let desired_mp4 := join output_dir (final_stem ++ ".mp4") in
  existing <- lift_fs (fun f => find_existing_asset f output_dir final_stem) ;;
  if opt_truthy existing then
    let existing := match existing with Some p => p | None => "" end in
    size <- read_fs (fun f => filesize f existing) ;;
    ret ("SKIPPED", "⏭️ Ya existe: " ++ existing, Some existing, size)
  else
    early <- fetching url ydl_opts ;;
    match early with
    | Some o => ret o
    | None =>
        final_path <- lift_fs (fun f => ensure_mp4_final_path f desired_mp4) ;;
        there <- read_fs (fun f => path_exists f final_path) ;;
        size <- read_fs (fun f => filesize f final_path) ;;
        if there && size_truthy size then
          if endswith ".mp4" (lower final_path) then
            ret ("OK", "✅ OK: " ++ final_path, Some final_path, size)
          else
            ret ("OK", "✅ OK (no MP4 por falta de ffmpeg): " ++ final_path,
                 Some final_path, size)
        else
          ret ("ERROR",
               "⚠️ Descargado pero no se encontró archivo final. Revisar ffmpeg/post-procesado.",
               None, None)
    end.

End WithRuntime.

(** Command-line arguments of [main] ([--sleep] only delays). *)
Record args : Type := {
  arg_input : string;
  arg_sheet : option string;
  arg_output : string;
  arg_browser : option string;
  arg_profile : option string;
  arg_cookie_file : option string;
  arg_no_max_quality_mp4 : bool;
  arg_report : option string
}.

(** One element of [rows], a row of the report. *)
Record report_row : Type := {
  timestamp : string;
  internal_penalty_id : string;
  url : string;
  status : string;
  message : string;
  filepath : option string;
  size_bytes : option Z
}.

(** [int(b)] *)
Definition int_of_bool (b : bool) : Z := if b then 1%Z else 0%Z.

(** What [main] has printed and collected when it reaches the summary:
    [Exit c] is [sys.exit(c)]. *)
Inductive main_end : Type :=
| Exit (code : Z)
| Summary (rows : list report_row) (ok_count fail_count : Z) (line : string).

Section WithRuntime.
Variable rt : runtime.

(** The [for _, row in df.iterrows()] loop; [df] is the frame returned by
    [read_excel], one pair (internal_penalty_id, url) per row. *)
Fixpoint main_loop (a : args) (df : list (string * string))
    (rows : list report_row) (ok_count : Z) : M (list report_row * Z) :=
  match df with
  | [] => ret (rows, ok_count)
  | (id0, url0) :: df' =>
      let pen_id := strip id0 in
      let url := strip url0 in
      fun w =>
      let ts := now_isoformat rt w in
      (if negb (truthy pen_id) || negb (truthy url) || String.eqb (lower url) "nan"
       then
         let msg := "❌ Datos incompletos" in
         main_loop a df'
           (rows ++ [{| timestamp := ts; internal_penalty_id := pen_id;
                        url := url; status := "ERROR"; message := msg;
                        filepath := None; size_bytes := None |}])
           ok_count
       else
         ydl_opts <- build_ydl_opts rt (arg_output a) pen_id (arg_browser a)
                       (arg_profile a) (arg_cookie_file a)
                       (negb (arg_no_max_quality_mp4 a)) ;;
         o <- download_one rt url (arg_output a) pen_id ydl_opts ;;
         let '(status, msg, fpath, fsize) := o in
         let ok_count := (ok_count + int_of_bool (String.eqb status "OK"))%Z in
         main_loop a df'
           (rows ++ [{| timestamp := ts; internal_penalty_id := pen_id;
                        url := url; status := status; message := msg;
                        filepath := fpath; size_bytes := fsize |}])
           ok_count) w
  end.

(** [main], from the default report path to the summary line.  [excel] is
    the outcome of [read_excel(args.input, args.sheet)]; the report file is
    written by pandas after the summary. *)
Definition main (a : args) (excel : result (list (string * string)))
  : M main_end :=
  (if negb (opt_truthy (arg_report a)) then makedirs rt (arg_output a) else ret tt) ;;;
  match excel with
  | Raise _ => ret (Exit 1)
  | Return df =>
      r <- main_loop a df [] 0%Z ;;
      let '(rows, ok_count) := r in
      let fail_count := (Z.of_nat (List.length df) - ok_count)%Z in
      ret (Summary rows ok_count fail_count
             ("✅ Éxitos: " ++ str_of_int ok_count ++
              " | ❌ Fallos: " ++ str_of_int fail_count))
  end.

End WithRuntime.

End Descarga.

(** ** [urllib.parse] *)

Module Urllib.
Import PyStr Py.

Definition is_c0_or_space (c : ascii) : bool := (nat_of_ascii c <=? 32)%nat.

(** [url.lstrip(_WHATWG_C0_CONTROL_OR_SPACE)] *)
Fixpoint lstrip_c0 (s : string) : string :=
  match s with
  | EmptyString => EmptyString
  | String a s' => if is_c0_or_space a then lstrip_c0 s' else s
  end.

(** Removal of [_UNSAFE_URL_BYTES_TO_REMOVE] (tab, CR, LF). *)
Fixpoint remove_unsafe (s : string) : string :=
  match s with
  | EmptyString => EmptyString
  | String a s' =>
      let n := nat_of_ascii a in
      if (n =? 9)%nat || (n =? 10)%nat || (n =? 13)%nat
      then remove_unsafe s' else String a (remove_unsafe s')
  end.

Definition is_alpha (c : ascii) : bool :=
  let n := nat_of_ascii c in
  ((65 <=? n)%nat && (n <=? 90)%nat) || ((97 <=? n)%nat && (n <=? 122)%nat).

Definition is_digit (c : ascii) : bool :=
  let n := nat_of_ascii c in (48 <=? n)%nat && (n <=? 57)%nat.

(** [c in scheme_chars] *)
Definition is_scheme_char (c : ascii) : bool :=
  is_alpha c || is_digit c
  || Ascii.eqb c "+" || Ascii.eqb c "-" || Ascii.eqb c ".".

Fixpoint all_scheme_chars (s : string) : bool :=
  match s with
  | EmptyString => true
  | String a s' => is_scheme_char a && all_scheme_chars s'
  end.

(** Length of the longest prefix of [s] without [/], [?] or [#]: the
    [delim] computed by [_splitnetloc]. *)
Fixpoint netloc_len (s : string) : nat :=
  match s with
  | EmptyString => O
  | String a s' =>
      if Ascii.eqb a "/" || Ascii.eqb a "?" || Ascii.eqb a "#" then O
      else S (netloc_len s')
  end.

(** [s.split(c, 1)] when [c in s]. *)
Definition split_once (c : ascii) (s : string) : string * string :=
  let i := find c s in (slice_to i s, slice_from (i + 1) s).

Record SplitResult : Type := {
  scheme : string;
  netloc : string;
  path : string;
  query : string;
  fragment : string
}.

(** [urlsplit(url)].  [urlparse] further splits the [;params] off the
    path and leaves the other fields, so its [query] is this one. *)
Definition urlsplit (check_netloc : string -> bool) (url : string)
  : result SplitResult :=
  let url := remove_unsafe (lstrip_c0 url) in
  let i := find ":" url in
  let '(scheme, url) :=
    match url with
    | String c0 _ =>
        if (0 <? i)%Z && is_alpha c0 && all_scheme_chars (slice_to i url)
        then (lower (slice_to i url), slice_from (i + 1) url)
        else (EmptyString, url)
    | EmptyString => (EmptyString, url)
    end in
  let has2 := String.eqb (take 2 url) "//" in
  let netloc :=
    if has2 then take (netloc_len (drop 2 url)) (drop 2 url) else EmptyString in
  let url := if has2 then drop (netloc_len (drop 2 url)) (drop 2 url) else url in
  if has2 && ((contains "[" netloc && negb (contains "]" netloc))
              || (contains "]" netloc && negb (contains "[" netloc)))
  then Raise "Invalid IPv6 URL"
  else
    let '(url, fragment) :=
      if contains "#" url then split_once "#" url else (url, EmptyString) in
    let '(url, query) :=
      if contains "?" url then split_once "?" url else (url, EmptyString) in
    if check_netloc netloc then
      Return {| scheme := scheme; netloc := netloc; path := url;
                query := query; fragment := fragment |}
    else Raise "netloc contains invalid characters".

Definition hex_val (c : ascii) : option nat :=
  let n := nat_of_ascii c in
  if is_digit c then Some (n - 48)
  else if (65 <=? n)%nat && (n <=? 70)%nat then Some (n - 55)
  else if (97 <=? n)%nat && (n <=? 102)%nat then Some (n - 87)
  else None.

(** [unquote(s)] on the bytes of [s]: every [%XX] with two hexadecimal
    digits becomes the byte [XX].  Python then decodes the bytes as UTF-8,
    which changes nothing on ASCII results. *)
Fixpoint unquote (s : string) : string :=
  match s with
  | EmptyString => EmptyString
  | String c s' =>
      match s' with
      | String a (String b rest) =>
          if Ascii.eqb c "%" then
            match hex_val a, hex_val b with
            | Some x, Some y => String (ascii_of_nat (16 * x + y)) (unquote rest)
            | _, _ => String c (unquote s')
            end
          else String c (unquote s')
      | _ => String c (unquote s')
      end
  end.

(** [parse_qsl(qs)] with its defaults: fields separated by [&], blank
    values dropped. *)
Definition parse_qsl (qs : string) : list (string * string) :=
  if negb (truthy qs) then []
  else
    flat_map
      (fun name_value =>
         if negb (truthy name_value) then []
         else if negb (contains "=" name_value) then []
         else
           let '(n, v) := split_once "=" name_value in
           if truthy v
           then [(unquote (replace_char "+" " " n), unquote (replace_char "+" " " v))]
           else [])
      (split_on "&" qs).

(** [k in parse_qs(qs)]: [parse_qs] groups the pairs of [parse_qsl] by name. *)
Definition parse_qs_mem (k : string) (qs : string) : bool :=
  existsb (fun nv => String.eqb k (fst nv)) (parse_qsl qs).

End Urllib.

(** ** download.py *)

Module Download.
Import PyStr PosixPath Py Glob World Urllib.
Local Open Scope py_scope.

(** [maxsize] of the [lru_cache] decorator. *)
Definition maxsize : nat := 128.

Fixpoint lru_get (url : string) (t : lru_table) : option (bool * dict) :=
  match t with
  | [] => None
  | (k, v) :: t' => if String.eqb url k then Some v else lru_get url t'
  end.

Fixpoint lru_remove (url : string) (t : lru_table) : lru_table :=
  match t with
  | [] => []
  | (k, v) :: t' =>
      if String.eqb url k then lru_remove url t' else (k, v) :: lru_remove url t'
  end.

(** [len(x)] *)
Definition py_len (v : pyval) : result Z :=
  match v with
  | VList l | VTuple l => Return (Z.of_nat (List.length l))
  | VDict d => Return (Z.of_nat (List.length d))
  | VStr s => Return (Z.of_nat (String.length s))
  | _ => Raise "object has no len()"
  end.

(** [f"{x}"] for the values the engine puts under ['title']; containers
    and functions print as their type name only. *)
Definition py_format (v : pyval) : string :=
  match v with
  | VStr s => s
  | VNone => "None"
  | VBool true => "True"
  | VBool false => "False"
  | VInt n => str_of_int n
  | VList _ => "list"
  | VTuple _ => "tuple"
  | VDict _ => "dict"
  | VFun _ => "function"
  end.

(** [d.get(k, default)] *)
Definition dict_get_default (k : string) (default : pyval) (d : dict) : pyval :=
  match dict_get k d with Some v => v | None => default end.

(** The dictionary returned by [download_single_video]. *)
Record download_result : Type := {
  r_url : string;
  r_success : bool;
  r_message : string
}.

Section WithRuntime.
Variable rt : runtime.

(** The fallback of [get_url_info]: ['list' in parse_qs(urlparse(url).query)]. *)
Definition url_fallback (url : string) : M (bool * dict) :=
  fun w =>
    (w, bind (urlsplit (netloc_ok rt) url)
          (fun parsed_url => Return (parse_qs_mem "list" (query parsed_url), []))).

Definition inspect_opts : dict :=
  [("quiet", VBool true);
   ("extract_flat", VBool true);
   ("no_warnings", VBool true);
   ("skip_download", VBool true);
   ("playlist_items", VStr "1")].

(** The body of [get_url_info], below the decorator. *)
Definition get_url_info_body (url : string) : M (bool * dict) :=
  try_except
    (with_YoutubeDL rt inspect_opts
       (info <- extract_info rt inspect_opts url ;;
        match info with
        | None => url_fallback url
        | Some info =>
            ret (val_eq_str (dict_get "_type" info) "playlist", info)
        end))
    (fun _ => url_fallback url).

(** [get_url_info] under [@lru_cache(maxsize=128)]: a hit returns the
    stored result and makes the entry the most recent one; a miss runs the
    body, stores its result and drops the least recent entry beyond
    [maxsize]; an exception of the body stores nothing. *)
Definition get_url_info (url : string) : M (bool * dict) :=
  fun w =>
    match lru_get url (url_info_cache w) with
    | Some v =>
        (set_cache ((url, v) :: lru_remove url (url_info_cache w)) w, Return v)
    | None =>
        match get_url_info_body url w with
        | (w', Return v) =>
            (set_cache (firstn maxsize ((url, v) :: url_info_cache w')) w',
             Return v)
        | (w', Raise e) => (w', Raise e)
        end
    end.

Definition is_playlist_url (url : string) : M bool :=
  r <- get_url_info url ;; ret (fst r).

(** The options [download_single_video] builds before it looks at the URL. *)
Definition single_video_opts (audio_only : bool) : dict * string :=
  let '(format_selector, file_extension, postprocessors) :=
    if audio_only then
      ("bestaudio/best", "mp3",
       [VDict [("key", VStr "FFmpegExtractAudio");
               ("preferredcodec", VStr "mp3");
               ("preferredquality", VStr "192")]])
    else
      ("bestvideo[height<=1080]+bestaudio/best[height<=1080]/" ++ "best", "mp4",
       [VDict [("key", VStr "FFmpegVideoConvertor");
               ("preferedformat", VStr "mp4")]]) in
  let ydl_opts : dict :=
    [("format", VStr format_selector);
     ("ignoreerrors", VBool true);
     ("no_warnings", VBool false);
     ("extract_flat", VBool false);
     ("writesubtitles", VBool false);
     ("writethumbnail", VBool false);
     ("writeautomaticsub", VBool false);
     ("postprocessors", VList postprocessors);
     ("keepvideo", VBool false);
     ("clean_infojson", VBool true);
     ("retries", VInt 3);
     ("fragment_retries", VInt 3);
     ("noplaylist", VBool false)] in
  let ydl_opts :=
    if negb audio_only
    then dict_set "merge_output_format" (VStr "mp4") ydl_opts
    else ydl_opts in
  (ydl_opts, file_extension).

Definition thread_tag (thread_id : Z) : string :=
  "[Thread " ++ str_of_int thread_id ++ "]".

(** The body of the [with] statement of [download_single_video]. *)
Definition single_video_body (url : string) (thread_id : Z) (audio_only : bool)
    (ydl_opts : dict) : M download_result :=
       (info <- extract_info rt ydl_opts url ;;
        match info with
        | None =>
            ret {| r_url := url; r_success := false;
                   r_message := "❌ " ++ thread_tag thread_id ++
                     " Failed to extract video information. Video may be private or unavailable." |}
        | Some info =>
            let is_pl := val_eq_str (dict_get "_type" info) "playlist" in
            pl <- (if is_pl then
                     let playlist_title :=
                       dict_get_default "title" (VStr "Unknown Playlist") info in
                     fun w =>
                       (w, bind (py_len (dict_get_default "entries" (VList []) info))
                             (fun video_count =>
                                Return (Some (playlist_title, video_count))))
                   else ret None) ;;
            match pl with
            | Some (_, 0%Z) =>
                ret {| r_url := url; r_success := false;
                       r_message := "❌ " ++ thread_tag thread_id ++
                         " Playlist appears to be empty or private" |}
            | _ =>
                download rt ydl_opts url ;;;
                match pl with
                | Some (playlist_title, video_count) =>
                    ret {| r_url := url; r_success := true;
                           r_message := "✅ " ++ thread_tag thread_id ++
                             " Playlist '" ++ py_format playlist_title ++
                             "' download completed! (" ++ str_of_int video_count ++
                             " " ++ (if audio_only then "MP3s" else "videos") ++ ")" |}
                | None =>
                    ret {| r_url := url; r_success := true;
                           r_message := "✅ " ++ thread_tag thread_id ++ " " ++
                             (if audio_only then "Audio" else "Video") ++
                             " download completed successfully!" |}
                end
            end
        end).

(** The [try] statement of [download_single_video]. *)
Definition single_video_fetch (url : string) (thread_id : Z) (audio_only : bool)
    (ydl_opts : dict) : M download_result :=
  try_except
    (with_YoutubeDL rt ydl_opts (single_video_body url thread_id audio_only ydl_opts))
    (fun e =>
       ret {| r_url := url; r_success := false;
              r_message := "❌ " ++ thread_tag thread_id ++ " Error: " ++ e |}).

(** The assignment of [ydl_opts['outtmpl']], by the kind of URL. *)
Definition set_outtmpl (output_path file_extension : string)
    (is_playlist : bool) (ydl_opts : dict) : dict :=
  if is_playlist then
    dict_set "outtmpl"
      (VStr (join (join output_path "%(playlist_title)s")
               ("%(playlist_index)s-%(title)s." ++ file_extension))) ydl_opts
  else
    dict_set "outtmpl"
      (VStr (join output_path ("%(title)s." ++ file_extension))) ydl_opts.

Definition download_single_video (url output_path : string) (thread_id : Z)
    (audio_only : bool) : M download_result :=
  let '(ydl_opts, file_extension) := single_video_opts audio_only in
  r <- get_url_info url ;;
  let '(is_playlist, cached_info) := r in
  let ydl_opts := set_outtmpl output_path file_extension is_playlist ydl_opts in
  single_video_fetch url thread_id audio_only ydl_opts.

End WithRuntime.

End Download.

(** ** Concrete disks and engines used to run the scripts *)

Module Scenario.
Import PyStr PosixPath Py Glob World.

Fixpoint assoc {A : Type} (k : string) (l : list (string * A)) : option A :=
  match l with
  | [] => None
  | (k', v) :: l' => if String.eqb k k' then Some v else assoc k l'
  end.

(** A disk given by its directory listings and file sizes.
    [listing]: for a directory, the names that match a pattern, in
    listing order; [matched]: the directories a directory pattern expands
    to; [sizes]: the files and their sizes; [ffmpeg]: is it on PATH. *)
Definition disk (listing : list (string * list (string * list string)))
    (matched : list (string * list string))
    (sizes : list (string * Z)) (ffmpeg : bool) : filesystem :=
  {| glob1 := fun d pat =>
       match assoc d listing with
       | Some pats => match assoc pat pats with Some l => l | None => [] end
       | None => []
       end;
     glob_dirs := fun d => match assoc d matched with Some l => l | None => [] end;
     lexists := fun p => match assoc p sizes with Some _ => true | None => false end;
     isdir := fun d => match assoc d listing with Some _ => true | None => false end;
     path_exists := fun p =>
       match assoc p sizes with
       | Some _ => true
       | None => match assoc p listing with Some _ => true | None => false end
       end;
     getsize := fun p => assoc p sizes;
     which := fun c =>
       if ffmpeg && String.eqb c "ffmpeg" then Some "/usr/bin/ffmpeg" else None |}.

Definition start (f : filesystem) : world :=
  {| fs := f; calls := []; url_info_cache := [] |}.

(** An engine that is never reachable: every request raises. *)
Definition offline : runtime :=
  {| os_makedirs := fun f _ => Return f;
     ydl_open := fun _ _ => Return tt;
     ydl_extract_info := fun _ _ _ => Raise "Unable to download webpage";
     ydl_download := fun w _ _ => (fs w, Raise "Unable to download webpage");
     ydl_close := fun _ => Return tt;
     now_isoformat := fun _ => "2025-01-01T00:00:00";
     netloc_ok := fun _ => true |}.

(** An engine whose answer changes with time: a URL is a playlist from the
    second inspection on. *)
Definition drifting : runtime :=
  {| os_makedirs := fun f _ => Return f;
     ydl_open := fun _ _ => Return tt;
     ydl_extract_info := fun w _ _ =>
       if (List.length (calls w) <=? 3)%nat
       then Return (Some [("_type", VStr "video")])
       else Return (Some [("_type", VStr "playlist")]);
     ydl_download := fun w _ _ => (fs w, Return tt);
     ydl_close := fun _ => Return tt;
     now_isoformat := fun _ => "2025-01-01T00:00:00";
     netloc_ok := fun _ => true |}.

(** An engine that finds every video and writes nothing. *)
Definition online : runtime :=
  {| os_makedirs := fun f _ => Return f;
     ydl_open := fun _ _ => Return tt;
     ydl_extract_info := fun _ _ _ => Return (Some [("_type", VStr "video")]);
     ydl_download := fun w _ _ => (fs w, Return tt);
     ydl_close := fun _ => Return tt;
     now_isoformat := fun _ => "2025-01-01T00:00:00";
     netloc_ok := fun _ => true |}.

(** An engine whose metadata extraction yields nothing. *)
Definition silent : runtime :=
  {| os_makedirs := fun f _ => Return f;
     ydl_open := fun _ _ => Return tt;
     ydl_extract_info := fun _ _ _ => Return None;
     ydl_download := fun w _ _ => (fs w, Return tt);
     ydl_close := fun _ => Return tt;
     now_isoformat := fun _ => "2025-01-01T00:00:00";
     netloc_ok := fun _ => true |}.

Definition empty_disk : filesystem := disk [] [] [] false.

(** [downloads/] holds a finished [p1.mp4]. *)
Definition disk_p1 : filesystem :=
  disk [("downloads", [("p1.*", ["p1.mp4"])])] []
       [("downloads/p1.mp4", 1024%Z)] true.

(** [out/] holds two finished files for [p1], listed webm first. *)
Definition disk_two : filesystem :=
  disk [("out", [("p1.*", ["p1.webm"; "p1.mp4"])])] []
       [("out/p1.webm", 5%Z); ("out/p1.mp4", 7%Z)] true.

(** The same directory contents, listed mp4 first. *)
Definition disk_two' : filesystem :=
  disk [("out", [("p1.*", ["p1.mp4"; "p1.webm"])])] []
       [("out/p1.webm", 5%Z); ("out/p1.mp4", 7%Z)] true.

(** [out.tmp/] is empty, [/videos/] holds [p1.mp4], and the directory [xty]
    (matched by the pattern [x[.tmp]y]) holds [p1.mp4]. *)
Definition disk_elsewhere : filesystem :=
  disk [("out.tmp", []);
        ("/videos", [("p1.*", ["p1.mp4"])]);
        ("xty", [("p1.*", ["p1.mp4"])])]
       [("x[.tmp]y", ["xty"])]
       [("/videos/p1.mp4", 10%Z); ("xty/p1.mp4", 10%Z)] true.

(** [my.tmp/] holds a finished [p1.mp4]. *)
Definition disk_tmpdir : filesystem :=
  disk [("my.tmp", [("p1.*", ["p1.mp4"])])] []
       [("my.tmp/p1.mp4", 10%Z)] true.

(** [n] URLs, all different. *)
Definition other_urls (n : nat) : list string :=
  map (fun i => "https://youtu.be/v" ++ str_of_int (Z.of_nat i)) (seq 1 n).

Definition default_args : Descarga.args :=
  {| Descarga.arg_input := "penales.xlsx";
     Descarga.arg_sheet := None;
     Descarga.arg_output := "downloads";
     Descarga.arg_browser := None;
     Descarga.arg_profile := None;
     Descarga.arg_cookie_file := None;
     Descarga.arg_no_max_quality_mp4 := false;
     Descarga.arg_report := None |}.

End Scenario.

(** ** Predicates used to state the properties *)

Module Spec.
Import PyStr PosixPath Py Glob World.

(** [c] is the largest value [f] takes. *)
Definition ceiling_of (f : Z -> Z) (c : Z) : Prop :=
  (forall n, (f n <= c)%Z) /\ (exists n, f n = c).

(** [f] never decreases, grows strictly while it is below [c], and stays
    at [c] once it got there. *)
Definition capped_increasing (f : Z -> Z) (c : Z) : Prop :=
  (forall n m, (n <= m)%Z -> (f n <= f m)%Z) /\
  (forall n m, (n < m)%Z -> (f n < c)%Z -> (f n < f m)%Z) /\
  (forall n m, (n <= m)%Z -> f n = c -> f m = c) /\
  ceiling_of f c.

(** [m] only appends to the log of engine calls. *)
Definition extends {A : Type} (m : M A) : Prop :=
  forall w, exists l, calls (fst (m w)) = (calls w ++ l)%list.

(** Number of report rows with a given status. *)
Definition count_status (st : string) (rows : list Descarga.report_row) : Z :=
  Z.of_nat (List.length
              (filter (fun r => String.eqb (Descarga.status r) st) rows)).

(** The names a directory listing gives do not start with a separator
    (the operating system lists plain names). *)
Definition names_plain (f : filesystem) : Prop :=
  forall d pat name, In name (glob1 f d pat) -> startswith "/" name = false.

(** The memo table holds at most one entry per key, as a dictionary does. *)
Definition cache_wf (w : world) : Prop :=
  NoDup (map fst (url_info_cache w)).

(** The world after [get_url_info] was called on each URL in turn, whatever
    the calls returned. *)
Fixpoint classify_all (rt : runtime) (urls : list string) (w : world) : world :=
  match urls with
  | [] => w
  | u :: urls' => classify_all rt urls' (fst (Download.get_url_info rt u w))
  end.

(** The keys of a memo table. *)
Definition keys (t : lru_table) : list string := map fst t.

(** [url] is cached with result [r], and the entries in front of it have
    their keys in [D]. *)
Definition cached_behind (url : string) (r : bool * dict) (D : list string)
    (w : world) : Prop :=
  exists l1 l2,
    url_info_cache w = (l1 ++ (url, r) :: l2)%list /\
    NoDup (keys (url_info_cache w)) /\
    incl (keys l1) D.

End Spec.

(** ** descarga_de_videos.py: reading the input workbook *)

Module DescargaInput.
Import PyStr PosixPath Py Glob World Descarga.

(** A data frame as pandas loaded it: its number of columns and its data
    rows (the row under [header=0] is not data).  A cell is given by the
    text [astype(str)] turns it into: an empty cell reads [nan]. *)
Record frame : Type := {
  ncols : nat;
  cells : list (list string)
}.

(** What [pd.read_excel] returns: one frame when a sheet is named, the
    dictionary of all sheets when [sheet_name] is [None]. *)
Inductive loaded : Type :=
| OneFrame (df : frame)
| AllSheets (sheets : list (string * frame)).

(** [pd.read_excel(excel_path, sheet_name=sheet, engine="openpyxl", header=0)]
    over the workbook found at [excel_path]: the sheets by name, or the
    error of opening it. *)
Definition pd_read_excel (workbook : result (list (string * frame)))
    (sheet : option string) : result loaded :=
  bind workbook (fun sheets =>
    match sheet with
    | None => Return (AllSheets sheets)
    | Some name =>
        match Scenario.assoc name sheets with
        | Some df => Return (OneFrame df)
        | None => Raise ("Worksheet named '" ++ name ++ "' not found")
        end
    end).

(** [row[i]], [nan] where the row is short. *)
Definition cell (i : nat) (row : list string) : string := nth i row "nan".

(** [read_excel]: columns A and M, stripped, rows with an empty id, an
    empty url or the url [nan] dropped. *)
Definition read_excel (workbook : result (list (string * frame)))
    (sheet : option string) : result (list (string * string)) :=
  bind (pd_read_excel workbook sheet) (fun l =>
    match l with
    | AllSheets _ => Raise "'dict' object has no attribute 'shape'"
    | OneFrame df =>
        if (ncols df <? 13)%nat
        then Raise "El Excel no tiene al menos 13 columnas (A..M)."
        else
          let out := map (fun row => (strip (cell 0 row), strip (cell 12 row)))
                         (cells df) in
          Return (filter (fun r =>
                            negb (String.eqb (fst r) "")
                            && negb (String.eqb (snd r) "")
                            && negb (String.eqb (lower (snd r)) "nan"))
                         out)
    end).

(** The test of [main] for a row with incomplete data. *)
Definition incomplete (id0 url0 : string) : bool :=
  negb (truthy (strip id0)) || negb (truthy (strip url0))
  || String.eqb (lower (strip url0)) "nan".

End DescargaInput.

(** ** download.py: input parsing, format listing, content count *)

Module DownloadInput.
Import PyStr PosixPath Py Glob World Download.
Local Open Scope py_scope.





Section WithRuntime.
Variable rt : runtime.

Definition listformats_opts : dict :=
  [("listformats", VBool true); ("quiet", VBool false)].

(** [get_available_formats]: the listing is printed by the engine. *)
Definition get_available_formats (url : string) : M unit :=
  try_except
    (with_YoutubeDL rt listformats_opts
       (extract_info rt listformats_opts url ;;; ret tt))
    (fun _ => ret tt).

(** The [sum(1 for url in urls if is_playlist_url(url))] of
    [download_youtube_content]. *)
Fixpoint count_playlists (urls : list string) : M Z :=
  match urls with
  | [] => ret 0%Z
  | url :: urls' =>
      b <- is_playlist_url rt url ;;
      n <- count_playlists urls' ;;
      ret ((if b then 1 else 0) + n)%Z
  end.

(** [download_youtube_content] up to the thread pool, for an
    [output_path] that is given: [None] when it only lists the formats of
    the first URL, otherwise [(playlist_count, video_count)]. *)
Definition download_youtube_content_head (urls : list string)
    (output_path : string) (list_formats : bool) : M (option (Z * Z)) :=
  if list_formats then
    match urls with
    | [] => raise "list index out of range"
    | url :: _ => get_available_formats url ;;; ret None
    end
  else
    makedirs rt output_path ;;;
    playlist_count <- count_playlists urls ;;
    let video_count := (Z.of_nat (List.length urls) - playlist_count)%Z in
    ret (Some (playlist_count, video_count)).

End WithRuntime.

End DownloadInput.

(** ** More disks and engines *)

Module Scenario2.
Import PyStr PosixPath Py Glob World Scenario.

(** An engine that downloads [p2] as [downloads/p2.mp4]. *)
Definition disk_p2_done : filesystem :=
  disk [("downloads", [("p1.*", ["p1.mp4"]); ("p2.*", ["p2.mp4"])])] []
       [("downloads/p1.mp4", 1024%Z); ("downloads/p2.mp4", 2048%Z)] true.

Definition fetches_mp4 : runtime :=
  {| os_makedirs := fun f _ => Return f;
     ydl_open := fun _ _ => Return tt;
     ydl_extract_info := fun _ _ _ => Return (Some [("_type", VStr "video")]);
     ydl_download := fun _ _ _ => (disk_p2_done, Return tt);
     ydl_close := fun _ => Return tt;
     now_isoformat := fun _ => "2025-01-01T00:00:00";
     netloc_ok := fun _ => true |}.

(** An engine without ffmpeg that leaves [downloads/p2.webm]. *)
Definition disk_p2_webm : filesystem :=
  disk [("downloads", [("p2.*", ["p2.webm"])])] []
       [("downloads/p2.webm", 512%Z)] false.

Definition fetches_webm : runtime :=
  {| os_makedirs := fun f _ => Return f;
     ydl_open := fun _ _ => Return tt;
     ydl_extract_info := fun _ _ _ => Return (Some [("_type", VStr "video")]);
     ydl_download := fun _ _ _ => (disk_p2_webm, Return tt);
     ydl_close := fun _ => Return tt;
     now_isoformat := fun _ => "2025-01-01T00:00:00";
     netloc_ok := fun _ => true |}.

(** [downloads/] holds [p3.mkv], whose size cannot be read, listed before
    the finished [p3.mp4]. *)
Definition disk_unreadable : filesystem :=
  disk [("downloads", [("p3.*", ["p3.mkv"; "p3.mp4"])])] []
       [("downloads/p3.mp4", 10%Z)] true.

(** An engine that sees an empty playlist. *)
Definition empty_playlist : runtime :=
  {| os_makedirs := fun f _ => Return f;
     ydl_open := fun _ _ => Return tt;
     ydl_extract_info := fun _ _ _ =>
       Return (Some [("_type", VStr "playlist"); ("title", VStr "Mix");
                     ("entries", VList [])]);
     ydl_download := fun w _ _ => (fs w, Return tt);
     ydl_close := fun _ => Return tt;
     now_isoformat := fun _ => "2025-01-01T00:00:00";
     netloc_ok := fun _ => true |}.

(** A sheet with thirteen columns and three data rows: a complete one,
    one without url and one without id. *)
Definition row13 (id0 url0 : string) : list string :=
  [id0; "x"; "x"; "x"; "x"; "x"; "x"; "x"; "x"; "x"; "x"; "x"; url0].

Definition sheet_penales : DescargaInput.frame :=
  {| DescargaInput.ncols := 13;
     DescargaInput.cells :=
       [row13 " p1 " "https://youtu.be/abc ";
        row13 "p2" "nan";
        row13 "" "https://youtu.be/def"] |}.

Definition workbook_penales : result (list (string * DescargaInput.frame)) :=
  Return [("Hoja1", sheet_penales)].

Definition args_with_cookie : Descarga.args :=
  {| Descarga.arg_input := "penales.xlsx";
     Descarga.arg_sheet := Some "Hoja1";
     Descarga.arg_output := "downloads";
     Descarga.arg_browser := Some "chrome";
     Descarga.arg_profile := None;
     Descarga.arg_cookie_file := Some "cookies.txt";
     Descarga.arg_no_max_quality_mp4 := false;
     Descarga.arg_report := None |}.

End Scenario2.

(** ** More predicates *)

Module Spec2.
Import PyStr PosixPath Py Glob World.

(** The calls of one engine session for [url], cut where it ended. *)
Definition one_session (ydl_opts : dict) (url : string)
    (l : list engine_call) : Prop :=
  l = [CallOpen ydl_opts] \/
  l = [CallOpen ydl_opts; CallExtractInfo url; CallClose] \/
  l = [CallOpen ydl_opts; CallExtractInfo url; CallDownload url; CallClose].

(** A session that went through the download. *)
Definition full_session (ydl_opts : dict) (url : string) : list engine_call :=
  [CallOpen ydl_opts; CallExtractInfo url; CallDownload url; CallClose].

(** The report row [main] writes for an input row with incomplete data. *)
Definition incomplete_row (ts id0 url0 : string) : Descarga.report_row :=
  {| Descarga.timestamp := ts;
     Descarga.internal_penalty_id := strip id0;
     Descarga.url := strip url0;
     Descarga.status := "ERROR";
     Descarga.message := "❌ Datos incompletos";
     Descarga.filepath := None;
     Descarga.size_bytes := None |}.




End Spec2.


(** * Theorems *)

(** ** Retry back-off *)

Module RetryFacts.
Import Py Descarga Spec.
Local Open Scope Z_scope.

Lemma min_linear_capped (k c : Z) :
  0 < k -> (k | c) -> capped_increasing (fun n => Z.min (k * n) c) c.
Proof.
  intros Hk [q Hq]. repeat split.
  - intros n m Hnm. apply Z.min_le_compat_r. nia.
  - intros n m Hnm Hlt. 
    destruct (Z.min_spec (k * n) c) as [[H1 H2]|[H1 H2]];
    destruct (Z.min_spec (k * m) c) as [[H3 H4]|[H3 H4]]; nia.
  - intros n m Hnm Heq.
    destruct (Z.min_spec (k * n) c) as [[H1 H2]|[H1 H2]];
    destruct (Z.min_spec (k * m) c) as [[H3 H4]|[H3 H4]]; nia.
  - intros n. apply Z.le_min_r.
  - exists q. subst c. replace (k * q) with (q * k) by ring. apply Z.min_id.
Qed.

Lemma ceiling_unique (f : Z -> Z) (c1 c2 : Z) :
  ceiling_of f c1 -> ceiling_of f c2 -> c1 = c2.
Proof.
  intros [B1 [n1 E1]] [B2 [n2 E2]].
  specialize (B1 n2). specialize (B2 n1). lia.
Qed.

(** C9, as amended: each of the three back-off functions installed by
    [build_ydl_opts] never decreases with the attempt number, grows strictly
    below its ceiling and is capped there; the ceiling is 30 for ["http"]
    and 10 for both ["fragment"] and ["extractor"]. *)
Theorem retry_sleep_capped_increasing :
  dict_get "http" retry_sleep_functions = Some (VFun retry_sleep_http) /\
  dict_get "fragment" retry_sleep_functions = Some (VFun retry_sleep_fragment) /\
  dict_get "extractor" retry_sleep_functions = Some (VFun retry_sleep_extractor) /\
  capped_increasing retry_sleep_http 30 /\
  capped_increasing retry_sleep_fragment 10 /\
  capped_increasing retry_sleep_extractor 10.
Proof.
  repeat split; try reflexivity;
    try (apply (min_linear_capped 5 30); [lia | exists 6; reflexivity]);
    try (apply (min_linear_capped 2 10); [lia | exists 5; reflexivity]).
Qed.

(** C9 as stated fails: the ceilings of the three error classes are not
    pairwise distinct, ["fragment"] and ["extractor"] share theirs. *)
Lemma retry_ceilings_not_distinct :
  ~ (exists ch cf ce,
        ceiling_of retry_sleep_http ch /\
        ceiling_of retry_sleep_fragment cf /\
        ceiling_of retry_sleep_extractor ce /\
        ch <> cf /\ cf <> ce /\ ch <> ce).
Proof.
  intros (ch & cf & ce & _ & Hf & He & _ & Hne & _).
  apply Hne. exact (ceiling_unique _ _ _ Hf He).
Qed.

End RetryFacts.

(** ** Facts about strings and paths *)

Module StrFacts.
Import PyStr PosixPath.

Lemma prefix_app (t b : string) : String.prefix t (t ++ b) = true.
Proof.
  induction t as [|c t IH]; simpl.
  - destruct b; reflexivity.
  - destruct (ascii_dec c c) as [_|N]; [exact IH | now elim N].
Qed.

Lemma prefix_inv (t s : string) :
  String.prefix t s = true -> exists b, s = t ++ b.
Proof.
  revert s; induction t as [|c t IH]; intros s H.
  - exists s. reflexivity.
  - destruct s as [|a s]; simpl in H; [discriminate|].
    destruct (ascii_dec c a) as [->|_]; [|discriminate].
    destruct (IH _ H) as [b ->]. exists b. reflexivity.
Qed.

Lemma append_assoc (a b c : string) : (a ++ b) ++ c = a ++ (b ++ c).
Proof. induction a as [|x a IH]; simpl; [reflexivity | now rewrite IH]. Qed.

Lemma append_nil_r (a : string) : a ++ "" = a.
Proof. induction a as [|x a IH]; simpl; [reflexivity | now rewrite IH]. Qed.

Lemma contains_prefix (t s : string) :
  String.prefix t s = true -> contains t s = true.
Proof. intros H. destruct s; cbn [contains]; rewrite H; reflexivity. Qed.

(** [t in s] holds exactly when [s] is some [a ++ t ++ b]. *)
Lemma contains_intro (t a b : string) : contains t (a ++ t ++ b) = true.
Proof.
  induction a as [|x a IH]; simpl.
  - apply contains_prefix, prefix_app.
  - rewrite IH. apply orb_true_r.
Qed.

Lemma contains_inv (t s : string) :
  contains t s = true -> exists a b, s = a ++ t ++ b.
Proof.
  induction s as [|x s IH]; cbn [contains]; intros H.
  - rewrite orb_false_r in H. destruct (prefix_inv _ _ H) as [b E].
    exists "", b. exact E.
  - apply orb_true_iff in H. destruct H as [H|H].
    + destruct (prefix_inv _ _ H) as [b E]. exists "", b. exact E.
    + destruct (IH H) as (a & b & ->). exists (String x a), b. reflexivity.
Qed.

Lemma lower_app (a b : string) : lower (a ++ b) = lower a ++ lower b.
Proof. induction a as [|x a IH]; simpl; [reflexivity | now rewrite IH]. Qed.

Lemma contains_lower (t s : string) :
  contains t s = true -> contains (lower t) (lower s) = true.
Proof.
  intros H. destruct (contains_inv _ _ H) as (a & b & ->).
  rewrite !lower_app. apply contains_intro.
Qed.

Lemma splitext_empty : splitext "" = ("", "").
Proof. reflexivity. Qed.

End StrFacts.

(** ** The asset probe *)

Module ProbeFacts.
Import PyStr PosixPath Py Glob World Descarga Spec StrFacts.

Lemma in_set_In (x : string) (l : list string) : in_set x l = true -> In x l.
Proof.
  unfold in_set. intros H. apply existsb_exists in H.
  destruct H as (y & Hy & E). apply String.eqb_eq in E. now subst.
Qed.

Lemma markers_lower (t : string) : In t TEMP_EXT_CONTAINS -> lower t = t.
Proof.
  unfold TEMP_EXT_CONTAINS; simpl.
  intros [<-|[<-|[<-|[<-|[]]]]]; reflexivity.
Qed.

(** What a path that passes one turn of the loop satisfies. *)
Lemma asset_check_true (f : filesystem) (p : string) :
  asset_check f p = Return true ->
  (exists n, getsize f p = Some n /\ (0 < n)%Z) /\
  (forall t, In t TEMP_EXT_CONTAINS -> contains t (lower p) = false) /\
  In (lower (snd (splitext p))) VALID_FINAL_EXTS.
Proof.
  unfold asset_check. destruct (splitext p) as [root ext]; cbn [snd].
  destruct (existsb (fun t => contains t (lower p)) TEMP_EXT_CONTAINS) eqn:Ht;
    [discriminate|].
  destruct (in_set (lower ext) VALID_FINAL_EXTS) eqn:Hv; [|discriminate].
  destruct (getsize f p) as [n|] eqn:Hs; [|discriminate].
  intros H. injection H as H. apply Z.ltb_lt in H.
  split; [exists n; auto|]. split; [|now apply in_set_In].
  intros t Hin. destruct (contains t (lower p)) eqn:E; [|reflexivity].
  assert (existsb (fun t => contains t (lower p)) TEMP_EXT_CONTAINS = true)
    by (apply existsb_exists; exists t; auto).
  congruence.
Qed.

(** The loop returns the first path of the list that passes a turn. *)
Lemma first_asset_some (f : filesystem) (l : list string) (p : string) :
  first_asset f l = Return (Some p) <->
  exists l1 l2, l = (l1 ++ p :: l2)%list /\
    Forall (fun q => asset_check f q = Return false) l1 /\
    asset_check f p = Return true.
Proof.
  induction l as [|q l IH]; simpl.
  - split; [discriminate|]. intros (l1 & l2 & E & _). destruct l1; discriminate.
  - destruct (asset_check f q) as [[|]|e] eqn:Hq.
    + split.
      * intros H. injection H as <-. exists [], l. auto.
      * intros (l1 & l2 & E & Hall & Hp). destruct l1 as [|q' l1].
        -- injection E as -> _. reflexivity.
        -- injection E as <- _. inversion Hall; congruence.
    + rewrite IH. split.
      * intros (l1 & l2 & -> & Hall & Hp). exists (q :: l1), l2. auto.
      * intros (l1 & l2 & E & Hall & Hp). destruct l1 as [|q' l1].
        -- injection E as -> _. congruence.
        -- injection E as <- ->. inversion Hall. exists l1, l2. auto.
    + split; [discriminate|].
      intros (l1 & l2 & E & Hall & Hp). destruct l1 as [|q' l1].
      * injection E as -> _. congruence.
      * injection E as <- _. inversion Hall; congruence.
Qed.

Lemma first_asset_none (f : filesystem) (l : list string) :
  first_asset f l = Return None <->
  Forall (fun q => asset_check f q = Return false) l.
Proof.
  induction l as [|q l IH]; simpl.
  - split; auto.
  - destruct (asset_check f q) as [[|]|e] eqn:Hq.
    + split; [discriminate | intros H; inversion H; congruence].
    + rewrite IH. split; [auto | intros H; now inversion H].
    + split; [discriminate | intros H; inversion H; congruence].
Qed.



(** C4, as amended: the probe returns the first qualifying path in the
    order in which [glob] lists the directory; every path listed before it
    was rejected.  The result is a function of that listing. *)
Theorem find_existing_asset_first_in_glob_order
    (f : filesystem) (output_dir stem : string) :
  (forall p,
     find_existing_asset f output_dir stem = Return (Some p) <->
     exists l1 l2,
       glob f (join output_dir (stem ++ ".*")) = (l1 ++ p :: l2)%list /\
       Forall (fun q => asset_check f q = Return false) l1 /\
       asset_check f p = Return true) /\
  (find_existing_asset f output_dir stem = Return None <->
   Forall (fun q => asset_check f q = Return false)
     (glob f (join output_dir (stem ++ ".*")))).
Proof.
  unfold find_existing_asset. split.
  - intros p. apply first_asset_some.
  - apply first_asset_none.
Qed.

(** C4 as stated fails: with two finished files for [p1] the probe
    returns [out/p1.webm], listed first, although [out/p1.mp4] qualifies
    and comes first in lexical order; and a directory with the same files
    listed in the other order gives the other answer. *)
Lemma probe_not_in_lexical_order :
  find_existing_asset Scenario.disk_two "out" "p1" = Return (Some "out/p1.webm") /\
  asset_check Scenario.disk_two "out/p1.mp4" = Return true /\
  In "out/p1.mp4" (glob Scenario.disk_two "out/p1.*") /\
  String.ltb "out/p1.mp4" "out/p1.webm" = true /\
  find_existing_asset Scenario.disk_two' "out" "p1" = Return (Some "out/p1.mp4") /\
  (forall q, In q (glob Scenario.disk_two "out/p1.*") <->
             In q (glob Scenario.disk_two' "out/p1.*")) /\
  (forall q, getsize Scenario.disk_two q = getsize Scenario.disk_two' q).
Proof.
  repeat split; try reflexivity; simpl; tauto.
Qed.

End ProbeFacts.

(** ** The acquisition task of descarga_de_videos.py *)

Module TaskFacts.
Import PyStr PosixPath Py Glob World Descarga Spec StrFacts ProbeFacts.




End TaskFacts.

(** ** Failures of the engine during fetching *)

Module FetchFacts.
Import PyStr PosixPath Py Glob World Spec.



Section Descarga.
Import Descarga.
Variable rt : runtime.
Variables (url output_dir final_stem : string) (ydl_opts : dict).



End Descarga.

Section Download.
Import Download.
Variable rt : runtime.


Lemma download_single_video_classified (url output_path : string)
    (thread_id : Z) (audio_only : bool) (w w1 : world)
    (is_playlist : bool) (cached_info : dict) :
  get_url_info rt url w = (w1, Return (is_playlist, cached_info)) ->
  download_single_video rt url output_path thread_id audio_only w =
    single_video_fetch rt url thread_id audio_only
      (set_outtmpl output_path (snd (single_video_opts audio_only)) is_playlist
         (fst (single_video_opts audio_only))) w1.
Proof.
  intros Hc. unfold download_single_video.
  destruct (single_video_opts audio_only) as [o ext]. cbn [fst snd].
  unfold mbind. rewrite Hc. reflexivity.
Qed.

End Download.




End FetchFacts.

(** ** Format negotiation *)

Module NegotiationFacts.
Import PyStr PosixPath Py Glob World Spec.

Lemma extends_pure {A : Type} (r : result A) : extends (fun w => (w, r)).
Proof. intros w. exists []. cbn. now rewrite app_nil_r. Qed.

Lemma extends_bind {A B : Type} (m : M A) (k : A -> M B) :
  extends m -> (forall a, extends (k a)) -> extends (mbind m k).
Proof.
  intros Hm Hk w. unfold mbind.
  destruct (Hm w) as [l1 E1]. destruct (m w) as [w1 [a|e]]; cbn in *.
  - destruct (Hk a w1) as [l2 E2]. exists (l1 ++ l2)%list.
    rewrite E2, E1. now rewrite app_assoc.
  - exists l1. exact E1.
Qed.

Lemma extends_extract_info rt o u : extends (extract_info rt o u).
Proof. intros w. exists [CallExtractInfo u]. reflexivity. Qed.

Lemma extends_download rt o u : extends (download rt o u).
Proof.
  intros w. exists [CallDownload u]. unfold download.
  destruct (ydl_download rt w o u). reflexivity.
Qed.

Lemma extends_try_ret {A : Type} (m : M A) (h : exn -> A) :
  extends m -> extends (try_except m (fun e => ret (h e))).
Proof.
  intros Hm w. destruct (Hm w) as [l E]. exists l.
  unfold try_except, ret. destruct (m w) as [w1 [a|e]]; exact E.
Qed.

(** The [with] statement logs its [CallOpen] before anything its body does. *)
Lemma with_YoutubeDL_opens {A : Type} rt o (body : M A) (w : world) :
  extends body ->
  exists l, calls (fst (with_YoutubeDL rt o body w))
            = (calls w ++ CallOpen o :: l)%list.
Proof.
  intros Hb. unfold with_YoutubeDL.
  destruct (ydl_open rt w o) as [[]|e].
  - destruct (Hb (log (CallOpen o) w)) as [l E].
    destruct (body (log (CallOpen o) w)) as [w1 r]. cbn in E.
    exists (l ++ [CallClose])%list.
    destruct (ydl_close rt w1); cbn; rewrite E, <- !app_assoc; reflexivity.
  - exists []. reflexivity.
Qed.

Lemma single_video_body_extends rt u t a o :
  extends (Download.single_video_body rt u t a o).
Proof.
  unfold Download.single_video_body.
  apply extends_bind; [apply extends_extract_info|].
  intros [info|]; [|apply extends_pure].
  apply extends_bind.
  - destruct (val_eq_str _ _); apply extends_pure.
  - intros [[title [|n|n]]|];
      try apply extends_pure;
      (apply extends_bind; [apply extends_download | intros; apply extends_pure]).
Qed.

Lemma single_video_fetch_opens rt u t a o (w : world) :
  exists l, calls (fst (Download.single_video_fetch rt u t a o w))
            = (calls w ++ CallOpen o :: l)%list.
Proof.
  destruct (with_YoutubeDL_opens rt o
              (Download.single_video_body rt u t a o) w
              (single_video_body_extends rt u t a o)) as [l E].
  exists l. unfold Download.single_video_fetch, try_except, ret.
  destruct (with_YoutubeDL rt o _ w) as [w1 [r|e]]; exact E.
Qed.

(** C1, as amended: [build_ydl_opts], which checks for ffmpeg, asks for the
    single pre-combined stream ["best"], with no post-processor and no
    [merge_output_format], whenever ffmpeg is not available; while
    [download_single_video], which does not check, opens the engine for a
    video with a selector that combines separate streams, a convertor to
    mp4 and [merge_output_format] mp4, on every disk. *)
Theorem negotiation_without_ffmpeg :
  (forall (rt : runtime) (w w' : world) (output_dir filename_no_ext : string)
          (browser profile cookie_file : option string)
          (want_max_quality_mp4 : bool) (ydl_opts : dict),
     Descarga.build_ydl_opts rt output_dir filename_no_ext browser profile
       cookie_file want_max_quality_mp4 w = (w', Return ydl_opts) ->
     Descarga.ffmpeg_available (fs w') = false ->
     dict_get "format" ydl_opts = Some (VStr "best") /\
     contains "+" "best" = false /\
     dict_get "postprocessors" ydl_opts = None /\
     dict_get "merge_output_format" ydl_opts = None)
  /\
  (forall (rt : runtime) (w w' : world) (url output_path : string)
          (thread_id : Z) (res : Download.download_result),
     Download.download_single_video rt url output_path thread_id false w
       = (w', Return res) ->
     exists ydl_opts,
       In (CallOpen ydl_opts) (calls w') /\
       dict_get "format" ydl_opts
         = Some (VStr "bestvideo[height<=1080]+bestaudio/best[height<=1080]/best") /\
       dict_get "postprocessors" ydl_opts
         = Some (VList [VDict [("key", VStr "FFmpegVideoConvertor");
                               ("preferedformat", VStr "mp4")]]) /\
       dict_get "merge_output_format" ydl_opts = Some (VStr "mp4")).
Proof.
  split.
  - intros rt w w' output_dir filename_no_ext browser profile cookie_file
      want ydl_opts Hb Hff.
    unfold Descarga.build_ydl_opts, mbind, makedirs, read_fs, ret, raise in Hb.
    destruct (os_makedirs rt (fs w) output_dir) as [f1|e]; [|discriminate].
    cbn [fs set_fs] in Hb.
    assert (Hw : fs w' = f1).
    { destruct (want && Descarga.ffmpeg_available f1);
      destruct (Descarga.opt_truthy cookie_file); cbn in Hb;
      try destruct (path_exists f1 _);
      try destruct (Descarga.opt_truthy browser);
      cbn in Hb; try discriminate; injection Hb as <- _; reflexivity. }
    rewrite Hw in Hff. rewrite Hff, andb_false_r in Hb.
    destruct (Descarga.opt_truthy cookie_file); cbn in Hb;
      try destruct (path_exists f1 _);
      try destruct (Descarga.opt_truthy browser);
      cbn in Hb; try discriminate; injection Hb as _ <-;
      repeat split; reflexivity.
  - intros rt w w' url output_path thread_id res Hd.
    unfold Download.download_single_video in Hd.
    destruct (Download.single_video_opts false) as [o ext] eqn:Ho.
    unfold mbind in Hd.
    destruct (Download.get_url_info rt url w) as [w1 [[is_pl info]|e]];
      [|discriminate].
    destruct (single_video_fetch_opens rt url thread_id false
                (Download.set_outtmpl output_path ext is_pl o) w1) as [l E].
    rewrite Hd in E. cbn [fst] in E.
    exists (Download.set_outtmpl output_path ext is_pl o). split.
    + rewrite E. apply in_or_app. right. left. reflexivity.
    + injection Ho as <- <-. destruct is_pl; repeat split; reflexivity.
Qed.

Lemma negotiation_without_ffmpeg_witness :
  exists w' ydl_opts,
    Descarga.build_ydl_opts Scenario.offline "downloads" "p1" None None None true
      (Scenario.start Scenario.empty_disk) = (w', Return ydl_opts) /\
    dict_get "format" ydl_opts = Some (VStr "best") /\
    contains "+" "best" = false /\
    dict_get "postprocessors" ydl_opts = None /\
    dict_get "merge_output_format" ydl_opts = None.
Proof.
  eexists _, _. split; [cbn; reflexivity|].
  destruct negotiation_without_ffmpeg as [H _].
  eapply (H Scenario.offline (Scenario.start Scenario.empty_disk) _
            "downloads" "p1" None None None true);
    [cbn; reflexivity | reflexivity].
Defined.

(** C1 as stated fails for [download_single_video]: on a disk without
    ffmpeg and with [audio_only] false it opens the engine with a selector
    holding a [+] combination, a post-processor and
    [merge_output_format]. *)
Lemma single_video_ignores_missing_ffmpeg :
  which Scenario.empty_disk "ffmpeg" = None /\
  exists ydl_opts sel pps,
    In (CallOpen ydl_opts)
       (calls (fst (Download.download_single_video Scenario.online
                      "https://youtu.be/abc" "downloads" 1 false
                      (Scenario.start Scenario.empty_disk)))) /\
    dict_get "format" ydl_opts = Some (VStr sel) /\
    contains "+" sel = true /\
    dict_get "postprocessors" ydl_opts = Some (VList pps) /\
    pps <> [] /\
    dict_get "merge_output_format" ydl_opts = Some (VStr "mp4").
Proof.
  split; [reflexivity|].
  eexists _, _, _. split.
  - cbn. right. right. right. left. reflexivity.
  - repeat split; try reflexivity. discriminate.
Qed.

End NegotiationFacts.

(** ** The end-of-run summary *)

Module SummaryFacts.
Import PyStr PosixPath Py Glob World Descarga Spec.

Lemma count_status_cons (st : string) (r : report_row) (l : list report_row) :
  count_status st (r :: l)
  = (int_of_bool (String.eqb (status r) st) + count_status st l)%Z.
Proof.
  unfold count_status. cbn [filter].
  destruct (String.eqb (status r) st); cbn [List.length int_of_bool]; lia.
Qed.

(** The loop appends one row per row of the frame and adds to [ok_count]
    the number of appended rows whose status is OK. *)
Lemma main_loop_counts (rt : runtime) (a : args) (df : list (string * string)) :
  forall rows0 ok0 w w' rows ok,
    main_loop rt a df rows0 ok0 w = (w', Return (rows, ok)) ->
    exists added,
      rows = (rows0 ++ added)%list /\
      List.length added = List.length df /\
      ok = (ok0 + count_status "OK" added)%Z.
Proof.
  induction df as [|[id0 url0] df IH]; intros rows0 ok0 w w' rows ok H.
  - cbn in H. injection H as _ <- <-. exists []. rewrite app_nil_r.
    repeat split. change (count_status "OK" []) with 0%Z. lia.
  - cbn [main_loop] in H.
    destruct (negb (truthy (strip id0)) || negb (truthy (strip url0))
              || String.eqb (lower (strip url0)) "nan").
    + apply IH in H. destruct H as (added & -> & Hlen & ->).
      eexists (_ :: added). rewrite <- app_assoc. split; [reflexivity|].
      split; [cbn; now rewrite Hlen|].
      rewrite count_status_cons. cbn. lia.
    + unfold mbind at 1 in H.
      destruct (build_ydl_opts rt _ _ _ _ _ _ w) as [w1 [opts|e]]; [|discriminate].
      unfold mbind at 1 in H.
      destruct (download_one rt _ _ _ opts w1) as [w2 [[[[st msg] fp] sz]|e]];
        [|discriminate].
      apply IH in H. destruct H as (added & -> & Hlen & ->).
      eexists (_ :: added). rewrite <- app_assoc. split; [reflexivity|].
      split; [cbn; now rewrite Hlen|].
      rewrite count_status_cons. cbn [status]. lia.
Qed.

(** C3, as amended: the summary of [main] carries two totals.  ["Éxitos"]
    is the number of report rows whose status is OK, so a SKIPPED item is
    not counted as a success; ["Fallos"] is the number of input rows
    minus that; there is one report row per input row, and the printed
    line shows these two numbers and no SKIPPED total. *)
Theorem main_summary_two_totals (rt : runtime) (a : args)
    (df : list (string * string)) (w w' : world)
    (rows : list report_row) (ok_count fail_count : Z) (line : string) :
  main rt a (Return df) w = (w', Return (Summary rows ok_count fail_count line)) ->
  List.length rows = List.length df /\
  ok_count = count_status "OK" rows /\
  fail_count = (Z.of_nat (List.length df) - ok_count)%Z /\
  line = "✅ Éxitos: " ++ str_of_int ok_count ++
         " | ❌ Fallos: " ++ str_of_int fail_count.
Proof.
  unfold main. intros H. unfold mbind at 1 in H.
  destruct ((if negb (opt_truthy (arg_report a))
             then makedirs rt (arg_output a) else ret tt) w) as [w1 [[]|e]];
    [|discriminate].
  unfold mbind in H.
  destruct (main_loop rt a df [] 0%Z w1) as [w2 [[rows' ok']|e]] eqn:Hl;
    [|discriminate].
  cbn in H. injection H as _ <- <- <- <-.
  apply main_loop_counts in Hl. destruct Hl as (added & -> & Hlen & ->).
  cbn [app]. repeat split; auto.
Qed.

Lemma main_summary_two_totals_witness :
  List.length
    [{| timestamp := "2025-01-01T00:00:00"; internal_penalty_id := "p1";
        url := "https://youtu.be/abc"; status := "SKIPPED";
        message := "⏭️ Ya existe: downloads/p1.mp4";
        filepath := Some "downloads/p1.mp4"; size_bytes := Some 1024%Z |}]
    = List.length [("p1", "https://youtu.be/abc")] /\
  0%Z = count_status "OK"
    [{| timestamp := "2025-01-01T00:00:00"; internal_penalty_id := "p1";
        url := "https://youtu.be/abc"; status := "SKIPPED";
        message := "⏭️ Ya existe: downloads/p1.mp4";
        filepath := Some "downloads/p1.mp4"; size_bytes := Some 1024%Z |}] /\
  1%Z = (Z.of_nat (List.length [("p1", "https://youtu.be/abc")]) - 0)%Z /\
  "✅ Éxitos: 0 | ❌ Fallos: 1" =
    "✅ Éxitos: " ++ str_of_int 0 ++ " | ❌ Fallos: " ++ str_of_int 1.
Proof.
  apply (main_summary_two_totals Scenario.offline Scenario.default_args
           [("p1", "https://youtu.be/abc")]
           (Scenario.start Scenario.disk_p1)
           (set_fs Scenario.disk_p1 (Scenario.start Scenario.disk_p1))).
  reflexivity.
Defined.

(** C3 as stated fails: a run whose only item is already on disk reports
    the row as SKIPPED, and the summary shows no success and one failure:
    the skipped item is inside the failure total, which differs from the
    number of ERROR rows, and no SKIPPED total is printed. *)
Lemma summary_folds_skipped_into_failures :
  exists w' rows,
    main Scenario.offline Scenario.default_args
      (Return [("p1", "https://youtu.be/abc")])
      (Scenario.start Scenario.disk_p1)
    = (w', Return (Summary rows 0 1 "✅ Éxitos: 0 | ❌ Fallos: 1")) /\
    map status rows = ["SKIPPED"] /\
    count_status "ERROR" rows = 0%Z /\
    count_status "SKIPPED" rows = 1%Z.
Proof.
  eexists _, _. split; [cbn; reflexivity|].
  repeat split.
Qed.

End SummaryFacts.

(** ** The probe under a directory whose path holds a marker *)

Module MarkerFacts.
Import PyStr PosixPath Py Glob World Descarga Spec StrFacts ProbeFacts.

Lemma nonempty_last (s : string) :
  s <> "" -> exists q y, s = q ++ String y "".
Proof.
  induction s as [|a s IH]; intros H; [now elim H|].
  destruct s as [|b s].
  - exists "", a. reflexivity.
  - destruct IH as (q & y & E); [discriminate|].
    exists (String a q), y. cbn [append]. now rewrite <- E.
Qed.

Lemma app_last_inj (p q : string) (x y : ascii) :
  p ++ String x "" = q ++ String y "" -> p = q /\ x = y.
Proof.
  revert q; induction p as [|a p IH]; intros [|b q] H; cbn in H.
  - injection H as ->. auto.
  - injection H as -> H. destruct q; discriminate.
  - injection H as -> H. destruct p; discriminate.
  - injection H as -> H. destruct (IH _ H) as [-> ->]. auto.
Qed.

Lemma endswith_inv (t s : string) :
  endswith t s = true -> exists p, s = p ++ t.
Proof.
  induction s as [|a s IH]; cbn [endswith]; intros H.
  - rewrite orb_false_r in H. apply String.eqb_eq in H. exists "". now subst.
  - apply orb_true_iff in H. destruct H as [H|H].
    + apply String.eqb_eq in H. exists "". now subst.
    + destruct (IH H) as [p ->]. exists (String a p). reflexivity.
Qed.

Lemma rfind_ge (c : ascii) (s : string) : (-1 <= rfind c s)%Z.
Proof.
  induction s as [|a s IH]; cbn [rfind]; [lia|].
  destruct (0 <=? rfind c s)%Z eqn:E; [apply Z.leb_le in E; lia|].
  destruct (Ascii.eqb a c); lia.
Qed.

(** The part of a path up to its last separator keeps everything up to
    any separator. *)
Lemma head_raw_prefix (u v : string) :
  slice_to (rfind sep (u ++ String sep v) + 1) (u ++ String sep v)
  = u ++ String sep (slice_to (rfind sep v + 1) v).
Proof.
  unfold slice_to.
  assert (Hbase : take (Z.to_nat (rfind sep (String sep v) + 1)) (String sep v)
                  = String sep (take (Z.to_nat (rfind sep v + 1)) v)).
  { cbn [rfind]. pose proof (rfind_ge sep v) as Hge.
    destruct (0 <=? rfind sep v)%Z eqn:E.
    - apply Z.leb_le in E.
      replace (Z.to_nat (rfind sep v + 1 + 1)) with (S (Z.to_nat (rfind sep v + 1)))
        by lia.
      reflexivity.
    - apply Z.leb_gt in E. rewrite Ascii.eqb_refl.
      replace (rfind sep v + 1)%Z with 0%Z by lia. reflexivity. }
  induction u as [|a u IH]; [exact Hbase|].
  cbn [append rfind].
  assert (Hpos : (0 <= rfind sep (u ++ String sep v))%Z).
  { clear. induction u as [|b u IH]; cbn [append rfind].
    - pose proof (rfind_ge sep v).
      destruct (0 <=? rfind sep v)%Z; [lia|]. rewrite Ascii.eqb_refl. lia.
    - destruct (0 <=? rfind sep (u ++ String sep v))%Z eqn:E; [lia|].
      apply Z.leb_gt in E. lia. }
  pose proof Hpos as Hpos'. apply Z.leb_le in Hpos'. rewrite Hpos'.
  replace (Z.to_nat (rfind sep (u ++ String sep v) + 1 + 1))
    with (S (Z.to_nat (rfind sep (u ++ String sep v) + 1))) by lia.
  cbn [take]. now rewrite IH.
Qed.

(** [rstrip] stops at the last character that is not stripped. *)
Lemma rstrip_keeps (c x : ascii) (u v : string) :
  x <> c -> rstrip c (u ++ String x v) = u ++ String x (rstrip c v).
Proof.
  intros Hx.
  assert (Hb : rstrip c (String x v) = String x (rstrip c v)).
  { cbn [rstrip]. destruct (rstrip c v); [|reflexivity].
    destruct (Ascii.eqb x c) eqn:E; [|reflexivity].
    apply Ascii.eqb_eq in E. contradiction. }
  induction u as [|a u IH]; [exact Hb|].
  cbn [append rstrip]. rewrite IH.
  destruct u; reflexivity.
Qed.

Lemma markers_last (t : string) :
  In t TEMP_EXT_CONTAINS ->
  exists t0 x, t = t0 ++ String x "" /\ x <> sep.
Proof.
  unfold TEMP_EXT_CONTAINS; simpl. intros [<-|[<-|[<-|[<-|[]]]]].
  - exists ".par", "t"%char. split; [reflexivity | discriminate].
  - exists ".ytd", "l"%char. split; [reflexivity | discriminate].
  - exists ".tem", "p"%char. split; [reflexivity | discriminate].
  - exists ".tm", "p"%char. split; [reflexivity | discriminate].
Qed.

(** A relative pattern joined to a directory that holds [u], where [u]
    ends with a character other than the separator, reads [u], more
    characters, a separator and the pattern. *)
Lemma join_shape (d b a u0 c : string) (x : ascii) :
  d = a ++ (u0 ++ String x "") ++ c -> x <> sep ->
  startswith "/" b = false ->
  exists c0, join d b = (a ++ u0) ++ String x (c0 ++ String sep b).
Proof.
  intros Hd Hx Hb. unfold join. rewrite Hb.
  assert (Htr : truthy d = true).
  { subst d. destruct a; [destruct u0|]; reflexivity. }
  rewrite Htr. cbn [negb orb].
  destruct (endswith "/" d) eqn:He.
  - apply endswith_inv in He. destruct He as [p Hp].
    destruct c as [|c1 c'].
    + exfalso. rewrite Hd, append_nil_r, <- append_assoc in Hp.
      apply app_last_inj in Hp. destruct Hp as [_ Hp]. contradiction.
    + destruct (nonempty_last (String c1 c')) as (q & y & Eq); [discriminate|].
      rewrite Eq in Hd. rewrite Hd in Hp.
      rewrite <- !append_assoc in Hp.
      apply app_last_inj in Hp. destruct Hp as [_ ->].
      exists q. rewrite Hd. rewrite !append_assoc. reflexivity.
  - exists c. rewrite Hd. rewrite !append_assoc. reflexivity.
Qed.

Lemma contains_star (pre : string) : contains "*" (pre ++ "*") = true.
Proof.
  rewrite <- (append_nil_r (pre ++ "*")), append_assoc.
  apply contains_intro.
Qed.

(** The last component of a pattern that ends with a star ends with it. *)
Lemma basename_star (pre : string) :
  exists y, slice_from (rfind sep (pre ++ "*") + 1) (pre ++ "*") = y ++ "*".
Proof.
  unfold slice_from. induction pre as [|a pre IH].
  - exists "". reflexivity.
  - cbn [append rfind]. pose proof (rfind_ge sep (pre ++ "*")) as Hge.
    destruct (0 <=? rfind sep (pre ++ "*"))%Z eqn:E.
    + apply Z.leb_le in E. destruct IH as [y Hy]. exists y.
      replace (Z.to_nat (rfind sep (pre ++ "*") + 1 + 1))
        with (S (Z.to_nat (rfind sep (pre ++ "*") + 1))) by lia.
      exact Hy.
    + destruct (Ascii.eqb a sep).
      * exists pre. reflexivity.
      * exists (String a pre). reflexivity.
Qed.

Lemma startswith_sep_app (s : string) :
  startswith "/" s = false -> startswith "/" (s ++ ".*") = false.
Proof.
  unfold startswith. destruct s as [|y s]; [reflexivity|].
  cbn [append prefix]. destruct (ascii_dec "/" y); [|reflexivity].
  destruct s; discriminate.
Qed.

(** The directory part of a path keeps every prefix that ends with a
    character other than the separator and is followed by a separator. *)
Lemma dirname_shape (u c0 b : string) (x : ascii) :
  x <> sep ->
  exists z, dirname (u ++ String x (c0 ++ String sep b)) = u ++ String x z.
Proof.
  intros Hx. unfold dirname, split. cbn [fst].
  replace (u ++ String x (c0 ++ String sep b))
    with ((u ++ String x c0) ++ String sep b)
    by (rewrite append_assoc; reflexivity).
  rewrite head_raw_prefix.
  set (z := slice_to (rfind sep b + 1) b).
  replace ((u ++ String x c0) ++ String sep z)
    with (u ++ String x (c0 ++ String sep z))
    by (rewrite append_assoc; reflexivity).
  destruct (truthy _ && negb (all_char sep _)).
  - rewrite rstrip_keeps by exact Hx. eauto.
  - eauto.
Qed.

Lemma asset_check_marker (f : filesystem) (p t : string) :
  In t TEMP_EXT_CONTAINS -> contains t (lower p) = true ->
  asset_check f p = Return false.
Proof.
  intros Hin Hc. unfold asset_check. destruct (splitext p) as [r e].
  assert (E : existsb (fun t => contains t (lower p)) TEMP_EXT_CONTAINS = true).
  { apply existsb_exists. exists t. auto. }
  now rewrite E.
Qed.

Lemma lower_app_inv (d a' b' : string) :
  lower d = a' ++ b' ->
  exists a b, d = a ++ b /\ lower a = a' /\ lower b = b'.
Proof.
  revert d. induction a' as [|y a' IH]; intros d H.
  - exists "", d. auto.
  - destruct d as [|x d]; [discriminate|].
    cbn [lower append] in H. injection H as Hx H.
    destruct (IH _ H) as (a & b & -> & <- & <-).
    exists (String x a), b. cbn [lower append]. now rewrite Hx.
Qed.

(** The probe finds nothing when the pattern is built on a directory that
    holds a piece [u0 ++ [x]] whose lower case is a marker. *)
Lemma probe_blind_core (f : filesystem) (output_dir stem t a u0 c : string)
    (x : ascii) :
  In t TEMP_EXT_CONTAINS ->
  lower (u0 ++ String x "") = t ->
  x <> sep ->
  output_dir = a ++ (u0 ++ String x "") ++ c ->
  startswith "/" stem = false ->
  has_magic (dirname (join output_dir (stem ++ ".*"))) = false ->
  names_plain f ->
  find_existing_asset f output_dir stem = Return None.
Proof.
  intros Hin Hlow Hx Hd Hrel Hmagic Hplain.
  assert (Hb : startswith "/" (stem ++ ".*") = false)
    by (apply startswith_sep_app; exact Hrel).
  destruct (join_shape output_dir (stem ++ ".*") a u0 c x Hd Hx Hb) as [c0 Hj].
  destruct (dirname_shape (a ++ u0) c0 (stem ++ ".*") x Hx) as [z Hz].
  unfold find_existing_asset. apply first_asset_none.
  rewrite Hj in Hmagic |- *.
  set (P := (a ++ u0) ++ String x (c0 ++ String sep (stem ++ ".*"))) in *.
  assert (HP : exists pre, P = pre ++ "*").
  { exists ((a ++ u0) ++ String x (c0 ++ String sep (stem ++ "."))).
    unfold P. rewrite (append_assoc (a ++ u0)). cbn [append].
    rewrite (append_assoc c0). cbn [append].
    rewrite (append_assoc stem). reflexivity. }
  destruct HP as [pre HP].
  assert (Hhead : fst (split P) = (a ++ u0) ++ String x z) by exact Hz.
  assert (Htail : has_magic (snd (split P)) = true).
  { unfold split; cbn [snd]. rewrite HP.
    destruct (basename_star pre) as [y ->].
    unfold has_magic. now rewrite contains_star. }
  assert (HmP : has_magic P = true).
  { unfold has_magic. rewrite HP. now rewrite contains_star. }
  unfold glob. fold (dirname P) in Hhead.
  destruct (split P) as [head tail] eqn:Es.
  unfold dirname in Hmagic, Hhead. rewrite Es in Hmagic, Hhead.
  cbn [fst snd] in *.
  rewrite HmP, Htail, Hmagic, andb_false_r. cbn [negb].
  assert (Htr : truthy head = true).
  { rewrite Hhead. destruct (a ++ u0); reflexivity. }
  rewrite Htr. cbn [negb flat_map]. rewrite app_nil_r.
  apply Forall_forall. intros p Hp.
  apply in_map_iff in Hp. destruct Hp as (name & <- & Hname).
  apply asset_check_marker with (t := t); [exact Hin|].
  rewrite <- Hlow. apply contains_lower.
  apply Hplain in Hname. unfold join. rewrite Hname, Htr. cbn [negb orb].
  rewrite Hhead.
  replace ((a ++ u0) ++ String x z) with (a ++ (u0 ++ String x "") ++ z)
    by (rewrite (append_assoc a u0), (append_assoc u0 (String x "") z);
        reflexivity).
  destruct (endswith "/" _);
    rewrite (append_assoc a), (append_assoc (u0 ++ String x ""));
    apply contains_intro.
Qed.

(** C10, as amended: the filter looks at the whole path in lower case.
    When the path of the output directory, in lower case, holds one of the
    markers (so in particular when it holds the marker as written), the
    item name does not start with a separator, the directory part of the
    search pattern has no wildcard character and the operating system
    lists plain names, the probe finds nothing, whatever files the
    directory holds. *)
Theorem probe_blind_under_marked_directory (f : filesystem)
    (output_dir stem t : string) :
  In t TEMP_EXT_CONTAINS ->
  contains t output_dir = true \/ contains t (lower output_dir) = true ->
  startswith "/" stem = false ->
  has_magic (dirname (join output_dir (stem ++ ".*"))) = false ->
  names_plain f ->
  find_existing_asset f output_dir stem = Return None.
Proof.
  intros Hin Hc Hrel Hmagic Hplain.
  assert (Hc' : contains t (lower output_dir) = true).
  { destruct Hc as [Hc|Hc]; [|exact Hc].
    rewrite <- (markers_lower t Hin). now apply contains_lower. }
  clear Hc.
  destruct (markers_last t Hin) as (t0 & x & Ht & Hx).
  destruct (contains_inv _ _ Hc') as (a' & c' & Hd).
  destruct (lower_app_inv _ _ _ Hd) as (a & rest & Ed & _ & Hrest).
  destruct (lower_app_inv _ _ _ Hrest) as (tt & c & Er & Htt & _).
  rewrite Ht in Htt.
  destruct (lower_app_inv _ _ _ Htt) as (u0 & q & Et & Hu0 & Hq).
  destruct q as [|x0 [|? ?]]; try discriminate.
  cbn [lower] in Hq. injection Hq as Hx0.
  assert (Hx0' : x0 <> sep).
  { intros ->. apply Hx. rewrite <- Hx0. reflexivity. }
  apply (probe_blind_core f output_dir stem t a u0 c x0); auto.
  - rewrite Ht, lower_app, Hu0. cbn [lower]. now rewrite Hx0.
  - now rewrite Ed, Er, Et.
Qed.

Lemma probe_blind_under_marked_directory_witness :
  find_existing_asset Scenario.disk_tmpdir "my.tmp" "p1" = Return None.
Proof.
  apply (probe_blind_under_marked_directory Scenario.disk_tmpdir
           "my.tmp" "p1" ".tmp").
  - simpl. tauto.
  - left. reflexivity.
  - reflexivity.
  - reflexivity.
  - intros d pat name. simpl.
    destruct (String.eqb d "my.tmp"); simpl; [|tauto].
    destruct (String.eqb pat "p1.*"); simpl; [|tauto].
    intros [<-|[]]. reflexivity.
Defined.

(** C10 as stated fails: with an item name that starts with a separator
    the directory is dropped from the search pattern, and with a
    directory path that is itself a wildcard pattern [glob] searches the
    directories it matches; in both cases the probe reports a file
    although the path of the output directory holds [.tmp]. *)
Lemma probe_sees_past_marked_directory :
  (contains ".tmp" "out.tmp" = true /\
   find_existing_asset Scenario.disk_elsewhere "out.tmp" "/videos/p1"
     = Return (Some "/videos/p1.mp4")) /\
  (contains ".tmp" "x[.tmp]y" = true /\
   find_existing_asset Scenario.disk_elsewhere "x[.tmp]y" "p1"
     = Return (Some "xty/p1.mp4")).
Proof. repeat split. Qed.

End MarkerFacts.

(** ** The memo table of [get_url_info] *)

Module CacheFacts.
Import PyStr PosixPath Py Glob World Download Spec.

Lemma lru_get_none_keys (u : string) (t : lru_table) :
  lru_get u t = None <-> ~ In u (keys t).
Proof.
  induction t as [|[k v] t IH]; cbn; [tauto|].
  destruct (String.eqb u k) eqn:E.
  - apply String.eqb_eq in E. subst. split; [discriminate | tauto].
  - apply String.eqb_neq in E. rewrite IH. split.
    + intros H [H1|H1]; [now subst | tauto].
    + tauto.
Qed.

Lemma lru_get_middle (u : string) (v : bool * dict) (l1 l2 : lru_table) :
  ~ In u (keys l1) -> lru_get u (l1 ++ (u, v) :: l2)%list = Some v.
Proof.
  induction l1 as [|[k x] l1 IH]; cbn; intros H.
  - now rewrite String.eqb_refl.
  - destruct (String.eqb u k) eqn:E.
    + apply String.eqb_eq in E. subst. tauto.
    + apply IH. tauto.
Qed.

Lemma keys_remove_incl (u : string) (t : lru_table) :
  incl (keys (lru_remove u t)) (keys t).
Proof.
  induction t as [|[k v] t IH]; cbn; [apply incl_refl|].
  destruct (String.eqb u k).
  - now apply incl_tl.
  - cbn. apply incl_cons; [now left | now apply incl_tl].
Qed.

Lemma keys_remove_notin (u : string) (t : lru_table) :
  ~ In u (keys (lru_remove u t)).
Proof.
  induction t as [|[k v] t IH]; cbn; [tauto|].
  destruct (String.eqb u k) eqn:E; [exact IH|].
  apply String.eqb_neq in E. cbn. intros [H|H]; [now subst | tauto].
Qed.

Lemma keys_remove_nodup (u : string) (t : lru_table) :
  NoDup (keys t) -> NoDup (keys (lru_remove u t)).
Proof.
  induction t as [|[k v] t IH]; cbn; intros H; [constructor|].
  inversion H as [|? ? Hk Ht]; subst.
  destruct (String.eqb u k); [now apply IH|].
  cbn. constructor; [|now apply IH].
  intros Hin. apply Hk. now apply (keys_remove_incl u t).
Qed.

Lemma lru_remove_middle (u k : string) (v : bool * dict) (l1 l2 : lru_table) :
  u <> k ->
  lru_remove u (l1 ++ (k, v) :: l2)%list
  = (lru_remove u l1 ++ (k, v) :: lru_remove u l2)%list.
Proof.
  intros Hne. induction l1 as [|[k' x] l1 IH]; cbn.
  - apply String.eqb_neq in Hne. now rewrite Hne.
  - destruct (String.eqb u k'); [exact IH | cbn; now rewrite IH].
Qed.

Lemma lru_get_remove_other (u k : string) (t : lru_table) :
  u <> k -> lru_get u (lru_remove k t) = lru_get u t.
Proof.
  intros Hne. induction t as [|[k' x] t IH]; cbn; [reflexivity|].
  destruct (String.eqb k k') eqn:E.
  - apply String.eqb_eq in E. subst k'.
    apply String.eqb_neq in Hne. now rewrite Hne.
  - cbn. now rewrite IH.
Qed.

Lemma keys_firstn (n : nat) (t : lru_table) :
  keys (firstn n t) = firstn n (keys t).
Proof. unfold keys. symmetry. apply firstn_map. Qed.

Lemma nodup_firstn {A : Type} (n : nat) (l : list A) :
  NoDup l -> NoDup (firstn n l).
Proof.
  intros H. rewrite <- (firstn_skipn n l) in H.
  now apply NoDup_app_remove_r in H.
Qed.

Lemma lru_get_firstn_none (u : string) (n : nat) (t : lru_table) :
  lru_get u t = None -> lru_get u (firstn n t) = None.
Proof.
  rewrite !lru_get_none_keys, keys_firstn. intros H Hin. apply H.
  rewrite <- (firstn_skipn n (keys t)). apply in_or_app. now left.
Qed.

(** The body of [get_url_info] does not touch the memo table. *)
Lemma body_keeps_cache (rt : runtime) (u : string) (w : world) :
  url_info_cache (fst (get_url_info_body rt u w)) = url_info_cache w.
Proof.
  unfold get_url_info_body, try_except, with_YoutubeDL, mbind, extract_info,
    url_fallback, ret.
  destruct (ydl_open rt w inspect_opts) as [[]|e]; [|reflexivity].
  destruct (ydl_extract_info rt _ inspect_opts u) as [[info|]|e];
    cbn;
    repeat match goal with
           | |- context [ydl_close rt ?x] => destruct (ydl_close rt x) as [[]|?]
           | |- context [bind ?x ?k] => destruct (bind x k)
           end; reflexivity.
Qed.

(** A call of [get_url_info] keeps the table a dictionary. *)
Lemma get_url_info_wf (rt : runtime) (u : string) (w : world) :
  cache_wf w -> cache_wf (fst (get_url_info rt u w)).
Proof.
  unfold cache_wf, get_url_info. intros H.
  destruct (lru_get u (url_info_cache w)) as [v|] eqn:Eg.
  - cbn. constructor; [apply keys_remove_notin | now apply keys_remove_nodup].
  - pose proof (body_keeps_cache rt u w) as Hb.
    destruct (get_url_info_body rt u w) as [w' [v|e]];
      cbn [fst] in Hb |- *; cbn [url_info_cache set_cache].
    + fold (keys (firstn maxsize ((u, v) :: url_info_cache w'))).
      rewrite keys_firstn. apply nodup_firstn. cbn [keys map fst]. rewrite Hb.
      constructor; [now apply lru_get_none_keys | exact H].
    + now rewrite Hb.
Qed.

Lemma keys_app (l1 l2 : lru_table) :
  keys (l1 ++ l2)%list = (keys l1 ++ keys l2)%list.
Proof. unfold keys. apply map_app. Qed.

Lemma front_is_short (url : string) (r : bool * dict) (D : list string)
    (l1 l2 : lru_table) (extra : list string) :
  NoDup (extra ++ keys l1)%list -> incl (extra ++ keys l1)%list D ->
  (List.length (nodup string_dec D) < maxsize)%nat ->
  (List.length extra + List.length l1 < maxsize)%nat.
Proof.
  intros Hnd Hincl Hlt.
  assert (Hle : (List.length (extra ++ keys l1)%list
                 <= List.length (nodup string_dec D))%nat).
  { apply NoDup_incl_length; [exact Hnd|].
    intros x Hx. apply nodup_In. now apply Hincl. }
  rewrite length_app in Hle. unfold keys in Hle. rewrite length_map in Hle. lia.
Qed.

(** A call on another URL of [D], or on [url] itself, keeps [url] cached. *)
Lemma cached_behind_step (rt : runtime) (url u : string) (r : bool * dict)
    (D : list string) (w : world) :
  (List.length (nodup string_dec D) < maxsize)%nat ->
  u = url \/ In u D ->
  cached_behind url r D w ->
  cached_behind url r D (fst (get_url_info rt u w)).
Proof.
  intros Hlt Hu (l1 & l2 & Ec & Hnd & Hincl).
  assert (Hfront : ~ In url (keys l1)).
  { rewrite Ec, keys_app in Hnd. cbn in Hnd.
    apply NoDup_remove_2 in Hnd. intros H. apply Hnd, in_or_app. now left. }
  unfold get_url_info.
  destruct (String.eqb u url) eqn:Eu.
  - apply String.eqb_eq in Eu. subst u.
    rewrite Ec, (lru_get_middle url r l1 l2 Hfront). cbn.
    exists [], (lru_remove url (l1 ++ (url, r) :: l2)%list).
    split; [reflexivity|].
    split; [|intros x []].
    cbn. constructor; [apply keys_remove_notin|].
    apply keys_remove_nodup. now rewrite <- Ec.
  - apply String.eqb_neq in Eu.
    destruct Hu as [Hu|Hu]; [contradiction|].
    destruct (lru_get u (url_info_cache w)) as [v|] eqn:Eg.
    + cbn. rewrite Ec, (lru_remove_middle u url r l1 l2 Eu).
      exists ((u, v) :: lru_remove u l1), (lru_remove u l2).
      split; [reflexivity|]. split.
      * rewrite <- (lru_remove_middle u url r l1 l2 Eu), <- Ec. cbn.
        constructor; [apply keys_remove_notin | now apply keys_remove_nodup].
      * cbn. apply incl_cons; [exact Hu|].
        eapply incl_tran; [apply keys_remove_incl | exact Hincl].
    + pose proof (body_keeps_cache rt u w) as Hb.
      destruct (get_url_info_body rt u w) as [w' [v|e]];
        cbn [fst] in Hb |- *; cbn [url_info_cache set_cache].
      * assert (Hnotin : ~ In u (keys l1)).
        { apply lru_get_none_keys in Eg. rewrite Ec, keys_app in Eg.
          intros H. apply Eg, in_or_app. now left. }
        assert (Hnd1 : NoDup (keys l1)).
        { rewrite Ec, keys_app in Hnd. now apply NoDup_app_remove_r in Hnd. }
        assert (Hshort : (1 + List.length l1 < maxsize)%nat).
        { apply (front_is_short url r D l1 l2 [u]); [| |exact Hlt].
          - cbn. now constructor.
          - cbn. now apply incl_cons. }
        rewrite Hb, Ec.
        exists ((u, v) :: l1),
               (firstn (maxsize - S (S (List.length l1))) l2).
        split; [|split].
        -- change ((u, v) :: l1 ++ (url, r) :: l2)%list
             with (((u, v) :: l1) ++ (url, r) :: l2)%list.
           rewrite firstn_app.
           rewrite firstn_all2 by (cbn; lia).
           cbn [List.length].
           destruct (maxsize - S (List.length l1))%nat as [|m] eqn:Em; [lia|].
           cbn [firstn url_info_cache set_cache].
           replace (maxsize - S (S (List.length l1)))%nat with m by lia.
           reflexivity.
        -- cbn [url_info_cache set_cache].
           rewrite keys_firstn. apply nodup_firstn. cbn [keys map fst].
           fold (keys (l1 ++ (url, r) :: l2)%list). rewrite <- Ec.
           constructor; [now apply lru_get_none_keys | exact Hnd].
        -- cbn. now apply incl_cons.
      * exists l1, l2. rewrite Hb. auto.
Qed.

Lemma cached_behind_all (rt : runtime) (url : string) (r : bool * dict)
    (D : list string) (mid : list string) :
  (List.length (nodup string_dec D) < maxsize)%nat ->
  Forall (fun u => u = url \/ In u D) mid ->
  forall w, cached_behind url r D w ->
            cached_behind url r D (classify_all rt mid w).
Proof.
  intros Hlt Hmid. induction Hmid as [|u mid Hu _ IH]; intros w Hw; cbn.
  - exact Hw.
  - apply IH. now apply cached_behind_step.
Qed.

(** Right after a call on [url] its result is at the front of the table. *)
Lemma cached_after_call (rt : runtime) (url : string) (r : bool * dict)
    (D : list string) (w w1 : world) :
  cache_wf w ->
  get_url_info rt url w = (w1, Return r) ->
  cached_behind url r D w1.
Proof.
  intros Hwf Hc. pose proof (get_url_info_wf rt url w Hwf) as Hwf1.
  rewrite Hc in Hwf1. cbn in Hwf1.
  unfold get_url_info in Hc.
  destruct (lru_get url (url_info_cache w)) as [v|] eqn:Eg.
  - injection Hc as <- <-. eexists [], _. split; [reflexivity|].
    split; [exact Hwf1 | intros x []].
  - destruct (get_url_info_body rt url w) as [w' [v|e]]; [|discriminate].
    injection Hc as <- <-. eexists [], _. split; [reflexivity|].
    split; [exact Hwf1 | intros x []].
Qed.

(** C2, as amended: the memo table is keyed by the exact URL string and
    keeps the 128 most recently used entries.  After a call for [url]
    returned [r], a later call for the same string returns [r] and makes
    no engine call, provided fewer than 128 distinct other URLs were
    classified in between; and storing [url] never turns another string
    into a hit. *)
Theorem memo_hit_while_recent (rt : runtime) (url : string)
    (mid : list string) (w w1 : world) (r : bool * dict) :
  cache_wf w ->
  get_url_info rt url w = (w1, Return r) ->
  (List.length (nodup string_dec (remove string_dec url mid)) < maxsize)%nat ->
  (exists w3,
     get_url_info rt url (classify_all rt mid w1) = (w3, Return r) /\
     calls w3 = calls (classify_all rt mid w1)) /\
  (forall other,
     other <> url ->
     lru_get other (url_info_cache w) = None ->
     lru_get other (url_info_cache w1) = None).
Proof.
  intros Hwf Hc Hlt. split.
  - set (D := remove string_dec url mid) in *.
    assert (Hmid : Forall (fun u => u = url \/ In u D) mid).
    { apply Forall_forall. intros u Hu.
      destruct (string_dec u url) as [->|Hne]; [now left | right].
      now apply in_in_remove. }
    pose proof (cached_after_call rt url r D w w1 Hwf Hc) as H1.
    pose proof (cached_behind_all rt url r D mid Hlt Hmid w1 H1) as H2.
    destruct H2 as (l1 & l2 & Ec & Hnd & _).
    assert (Hfront : ~ In url (keys l1)).
    { rewrite Ec, keys_app in Hnd. cbn in Hnd.
      apply NoDup_remove_2 in Hnd. intros H. apply Hnd, in_or_app. now left. }
    unfold get_url_info.
    rewrite Ec, (lru_get_middle url r l1 l2 Hfront).
    eexists. split; reflexivity.
  - intros other Hne Hnone. unfold get_url_info in Hc.
    destruct (lru_get url (url_info_cache w)) as [v|] eqn:Eg.
    + injection Hc as <- _. cbn.
      apply String.eqb_neq in Hne. rewrite Hne.
      rewrite lru_get_remove_other by (now apply String.eqb_neq).
      exact Hnone.
    + pose proof (body_keeps_cache rt url w) as Hb.
      destruct (get_url_info_body rt url w) as [w' [v|e]]; [|discriminate].
      assert (Hw1 : w1 = set_cache
                (firstn maxsize ((url, v) :: url_info_cache w')) w')
        by congruence.
      subst w1. cbn [fst] in Hb. cbn [url_info_cache set_cache].
      apply lru_get_firstn_none. cbn [lru_get].
      apply String.eqb_neq in Hne. rewrite Hne, Hb. exact Hnone.
Qed.

Lemma memo_hit_while_recent_witness :
  exists w3,
    get_url_info Scenario.drifting "https://www.youtube.com/watch?v=abc&list=PL1"
      (classify_all Scenario.drifting
         ("https://www.youtube.com/watch?list=PL1&v=abc" :: Scenario.other_urls 100)
         (fst (get_url_info Scenario.drifting
                 "https://www.youtube.com/watch?v=abc&list=PL1"
                 (Scenario.start Scenario.empty_disk))))
    = (w3, Return (false, [("_type", VStr "video")])) /\
    calls w3 =
    calls (classify_all Scenario.drifting
             ("https://www.youtube.com/watch?list=PL1&v=abc" :: Scenario.other_urls 100)
             (fst (get_url_info Scenario.drifting
                     "https://www.youtube.com/watch?v=abc&list=PL1"
                     (Scenario.start Scenario.empty_disk)))).
Proof.
  apply (memo_hit_while_recent Scenario.drifting
           "https://www.youtube.com/watch?v=abc&list=PL1"
           ("https://www.youtube.com/watch?list=PL1&v=abc" :: Scenario.other_urls 100)
           (Scenario.start Scenario.empty_disk)).
  - constructor.
  - reflexivity.
  - vm_compute. lia.
Defined.

(** C2 as stated fails: after 128 other URLs were classified the entry of
    the first URL is gone; the next call for it inspects again (three more
    engine calls) and, the remote content having changed, classifies it
    differently. *)
Lemma memo_evicts_after_128_others :
  snd (get_url_info Scenario.drifting "https://www.youtube.com/watch?v=abc&list=PL1"
         (Scenario.start Scenario.empty_disk))
  = Return (false, [("_type", VStr "video")]) /\
  snd (get_url_info Scenario.drifting "https://www.youtube.com/watch?v=abc&list=PL1"
         (classify_all Scenario.drifting (Scenario.other_urls 128)
            (fst (get_url_info Scenario.drifting
                    "https://www.youtube.com/watch?v=abc&list=PL1"
                    (Scenario.start Scenario.empty_disk)))))
  = Return (true, [("_type", VStr "playlist")]) /\
  List.length
    (calls (fst (get_url_info Scenario.drifting
                   "https://www.youtube.com/watch?v=abc&list=PL1"
                   (classify_all Scenario.drifting (Scenario.other_urls 128)
                      (fst (get_url_info Scenario.drifting
                              "https://www.youtube.com/watch?v=abc&list=PL1"
                              (Scenario.start Scenario.empty_disk)))))))
  = (List.length
       (calls (classify_all Scenario.drifting (Scenario.other_urls 128)
                 (fst (get_url_info Scenario.drifting
                         "https://www.youtube.com/watch?v=abc&list=PL1"
                         (Scenario.start Scenario.empty_disk))))) + 3)%nat.
Proof. vm_compute. repeat split. Qed.

End CacheFacts.

(** ** The fallback of the URL classifier *)

Module FallbackFacts.
Import PyStr PosixPath Py Glob World Download Urllib Spec.

Example fallback_playlist :
  snd (get_url_info Scenario.offline "https://www.youtube.com/watch?v=abc&list=PL1"
         (Scenario.start Scenario.empty_disk)) = Return (true, []).
Proof. reflexivity. Qed.

Example fallback_single :
  snd (get_url_info Scenario.offline "https://youtu.be/abc"
         (Scenario.start Scenario.empty_disk)) = Return (false, []).
Proof. reflexivity. Qed.

Example fallback_blank_list :
  snd (get_url_info Scenario.offline "https://www.youtube.com/watch?v=abc&list="
         (Scenario.start Scenario.empty_disk)) = Return (false, []).
Proof. reflexivity. Qed.

(** C5, the defect: for a URL whose network location opens a bracket that
    is never closed, [urlparse] raises inside the fallback, whatever the
    runtime; so when the inspection fails, by an exception or by yielding
    nothing, [get_url_info] raises instead of returning a classification. *)
Theorem fallback_raises_on_unmatched_bracket (rt : runtime) (w : world) :
  snd (url_fallback rt "http://[youtube.com/watch?v=abc" w)
    = Raise "Invalid IPv6 URL" /\
  snd (get_url_info Scenario.offline "http://[youtube.com/watch?v=abc"
         (Scenario.start Scenario.empty_disk)) = Raise "Invalid IPv6 URL" /\
  snd (get_url_info Scenario.silent "http://[youtube.com/watch?v=abc"
         (Scenario.start Scenario.empty_disk)) = Raise "Invalid IPv6 URL".
Proof. repeat split. Qed.

End FallbackFacts.

(** ** The fallback on URLs that parse *)

Module FallbackTotal.
Import PyStr PosixPath Py Glob World Download Urllib Spec.

(** When [urlparse] accepts the URL, the fallback returns whether ['list']
    is a key of the parsed query string, with an empty info dictionary. *)
Lemma url_fallback_parsable (rt : runtime) (url : string) (w : world)
    (parsed : SplitResult) :
  urlsplit (netloc_ok rt) url = Return parsed ->
  url_fallback rt url w = (w, Return (parse_qs_mem "list" (query parsed), [])).
Proof. unfold url_fallback. now intros ->. Qed.

(** On such a URL the body of [get_url_info] never raises, and whenever
    the inspection yields nothing or the [with] block raises, the result
    is the one of the fallback. *)
Lemma get_url_info_body_parsable (rt : runtime) (url : string) (w : world)
    (parsed : SplitResult) :
  urlsplit (netloc_ok rt) url = Return parsed ->
  (exists w' r, get_url_info_body rt url w = (w', Return r)) /\
  (forall w' e,
     with_YoutubeDL rt inspect_opts
       (mbind (extract_info rt inspect_opts url)
          (fun info =>
             match info with
             | None => url_fallback rt url
             | Some info =>
                 ret (val_eq_str (dict_get "_type" info) "playlist", info)
             end)) w = (w', Raise e) ->
     get_url_info_body rt url w
       = (w', Return (parse_qs_mem "list" (query parsed), []))) /\
  (ydl_open rt w inspect_opts = Return tt ->
   ydl_extract_info rt (log (CallOpen inspect_opts) w) inspect_opts url
     = Return None ->
   snd (get_url_info_body rt url w)
     = Return (parse_qs_mem "list" (query parsed), [])).
Proof.
  intros Hp. repeat split.
  - unfold get_url_info_body, try_except.
    destruct (with_YoutubeDL rt inspect_opts _ w) as [w' [r|e]]; [eauto|].
    rewrite (url_fallback_parsable rt url w' parsed Hp). eauto.
  - intros w' e Hr. unfold get_url_info_body, try_except. rewrite Hr.
    apply url_fallback_parsable, Hp.
  - intros Ho He.
    unfold get_url_info_body, try_except, with_YoutubeDL, mbind, extract_info.
    rewrite Ho, He.
    rewrite (url_fallback_parsable rt url _ parsed Hp).
    destruct (ydl_close rt _) as [[]|e]; cbn [snd].
    + reflexivity.
    + rewrite (url_fallback_parsable rt url _ parsed Hp). reflexivity.
Qed.

End FallbackTotal.

(** * Further properties of descarga_de_videos.py *)

(** ** The options built for the engine *)

Module OptionFacts.
Import PyStr PosixPath Py Glob World Descarga Spec.

(** Past [os.makedirs], [build_ydl_opts] reads the disk and leaves it as
    [os.makedirs] returned it. *)
Lemma build_ydl_opts_disk (rt : runtime) (w w' : world)
    (output_dir name : string) (browser profile cookie_file : option string)
    (want : bool) (r : result dict) :
  build_ydl_opts rt output_dir name browser profile cookie_file want w = (w', r) ->
  (exists f1, os_makedirs rt (fs w) output_dir = Return f1 /\ w' = set_fs f1 w) \/
  (exists e, os_makedirs rt (fs w) output_dir = Raise e /\ w' = w /\ r = Raise e).
Proof.
  unfold build_ydl_opts, mbind, makedirs, read_fs, ret, raise.
  destruct (os_makedirs rt (fs w) output_dir) as [f1|e].
  - intros H. left. exists f1. split; [reflexivity|].
    cbn [fs set_fs] in H.
    destruct (want && ffmpeg_available f1);
      destruct (opt_truthy cookie_file); cbn in H;
      try destruct (path_exists f1 _);
      try destruct (opt_truthy browser);
      cbn in H; congruence.
  - intros H. right. exists e. repeat split; congruence.
Qed.

(** The high-quality policy is chosen exactly when it is wanted and ffmpeg
    is on PATH: then the selector combines the best video with the best
    audio, two post-processors remux and convert to mp4 and the merge
    format is mp4; otherwise none of the two keys is set. *)
Theorem build_ydl_opts_policy (rt : runtime) (w w' : world)
    (output_dir name : string) (browser profile cookie_file : option string)
    (want : bool) (ydl_opts : dict) :
  build_ydl_opts rt output_dir name browser profile cookie_file want w
    = (w', Return ydl_opts) ->
  (want && ffmpeg_available (fs w') = true ->
   dict_get "format" ydl_opts = Some (VStr "bestvideo*+bestaudio/best") /\
   dict_get "postprocessors" ydl_opts
     = Some (VList [VDict [("key", VStr "FFmpegVideoRemuxer");
                           ("preferedformat", VStr "mp4")];
                    VDict [("key", VStr "FFmpegVideoConvertor");
                           ("preferedformat", VStr "mp4")]]) /\
   dict_get "merge_output_format" ydl_opts = Some (VStr "mp4")) /\
  dict_mem "merge_output_format" ydl_opts = want && ffmpeg_available (fs w') /\
  dict_mem "postprocessors" ydl_opts = want && ffmpeg_available (fs w') /\
  dict_get "outtmpl" ydl_opts = Some (VStr (join output_dir (name ++ ".%(ext)s"))) /\
  dict_get "noplaylist" ydl_opts = Some (VBool true).
Proof.
  intros Hb.
  destruct (build_ydl_opts_disk _ _ _ _ _ _ _ _ _ _ Hb)
    as [(f1 & Hmk & ->)|(e & _ & _ & He)]; [|discriminate].
  cbn [fs set_fs].
  unfold build_ydl_opts, mbind, makedirs, read_fs, ret, raise in Hb.
  rewrite Hmk in Hb. cbn [fs set_fs] in Hb.
  destruct (want && ffmpeg_available f1);
    destruct (opt_truthy cookie_file); cbn in Hb;
    try destruct (path_exists f1 _);
    try destruct (opt_truthy browser);
    cbn in Hb; try discriminate; injection Hb as <-;
    repeat split; try reflexivity; try discriminate.
Qed.

Lemma build_ydl_opts_policy_witness :
  exists w' ydl_opts,
    build_ydl_opts Scenario.offline "downloads" "p1" None None None true
      (Scenario.start Scenario.disk_p1) = (w', Return ydl_opts) /\
    dict_mem "merge_output_format" ydl_opts = true.
Proof.
  eexists _, _. split; [cbn; reflexivity|].
  refine (proj1 (proj2 (build_ydl_opts_policy Scenario.offline
            (Scenario.start Scenario.disk_p1)
            (set_fs Scenario.disk_p1 (Scenario.start Scenario.disk_p1))
            "downloads" "p1" None None None true _ _))).
  cbn; reflexivity.
Defined.

(** Credentials: a cookie file that is named but missing makes
    [build_ydl_opts] raise; one that exists is passed as [cookiefile] and
    hides the browser; without a cookie file a named browser is passed as
    [cookiesfrombrowser] with its profile; the two keys are never set
    together. *)
Theorem build_ydl_opts_cookies (rt : runtime) (w w' : world)
    (output_dir name : string) (browser profile cookie_file : option string)
    (want : bool) (r : result dict) (f1 : filesystem) :
  os_makedirs rt (fs w) output_dir = Return f1 ->
  build_ydl_opts rt output_dir name browser profile cookie_file want w = (w', r) ->
  match cookie_file with
  | Some cf =>
      if truthy cf then
        if path_exists f1 cf then
          exists ydl_opts, r = Return ydl_opts /\
            dict_get "cookiefile" ydl_opts = Some (VStr cf) /\
            dict_get "cookiesfrombrowser" ydl_opts = None
        else r = Raise ("Cookie file no encontrado: " ++ cf)
      else True
  | None => True
  end /\
  (opt_truthy cookie_file = false ->
   exists ydl_opts, r = Return ydl_opts /\
     dict_get "cookiefile" ydl_opts = None /\
     dict_get "cookiesfrombrowser" ydl_opts =
       if opt_truthy browser
       then Some (VTuple [opt_val browser; opt_val profile; VNone])
       else None).
Proof.
  intros Hmk Hb.
  unfold build_ydl_opts, mbind, makedirs, read_fs, ret, raise in Hb.
  rewrite Hmk in Hb. cbn [fs set_fs] in Hb.
  split.
  - destruct cookie_file as [cf|]; [|exact I].
    destruct (truthy cf) eqn:Hcf; [|exact I].
    cbn [opt_truthy] in Hb. rewrite Hcf in Hb.
    destruct (want && ffmpeg_available f1); cbn in Hb;
      destruct (path_exists f1 cf); cbn in Hb;
      injection Hb as _ <-; eauto.
  - intros Hno. rewrite Hno in Hb.
    destruct (want && ffmpeg_available f1);
      destruct (opt_truthy browser); cbn in Hb;
      injection Hb as _ <-; eauto.
Qed.

Lemma build_ydl_opts_cookies_witness :
  snd (build_ydl_opts Scenario.offline "downloads" "p1" (Some "chrome") None
         (Some "cookies.txt") true (Scenario.start Scenario.empty_disk))
  = Raise ("Cookie file no encontrado: " ++ "cookies.txt").
Proof.
  destruct (build_ydl_opts Scenario.offline "downloads" "p1" (Some "chrome") None
              (Some "cookies.txt") true (Scenario.start Scenario.empty_disk))
    as [w' r] eqn:E.
  destruct (build_ydl_opts_cookies Scenario.offline
              (Scenario.start Scenario.empty_disk) w' "downloads" "p1"
              (Some "chrome") None (Some "cookies.txt") true r
              Scenario.empty_disk eq_refl E) as [H _].
  exact H.
Defined.

End OptionFacts.

(** ** Errors of the asset probe *)

Module ProbeErrors.
Import PyStr PosixPath Py Glob World Descarga Spec StrFacts ProbeFacts.

Lemma asset_check_raise (f : filesystem) (p : string) (e : exn) :
  asset_check f p = Raise e <->
  existsb (fun t => contains t (lower p)) TEMP_EXT_CONTAINS = false /\
  in_set (lower (snd (splitext p))) VALID_FINAL_EXTS = true /\
  getsize f p = None /\ e = "OSError".
Proof.
  unfold asset_check. destruct (splitext p) as [root ext]; cbn [snd].
  destruct (existsb (fun t => contains t (lower p)) TEMP_EXT_CONTAINS).
  - split; [discriminate | intros (H & _); discriminate].
  - destruct (in_set (lower ext) VALID_FINAL_EXTS).
    + destruct (getsize f p) as [n|].
      * split; [discriminate | intros (_ & _ & H & _); discriminate].
      * split; [intros H; injection H as <-; auto
               | intros (_ & _ & _ & ->); reflexivity].
    + split; [discriminate | intros (_ & H & _); discriminate].
Qed.

Lemma first_asset_raise (f : filesystem) (l : list string) (e : exn) :
  first_asset f l = Raise e <->
  exists l1 p l2, l = (l1 ++ p :: l2)%list /\
    Forall (fun q => asset_check f q = Return false) l1 /\
    asset_check f p = Raise e.
Proof.
  induction l as [|q l IH]; simpl.
  - split; [discriminate|]. intros (l1 & p & l2 & E & _). destruct l1; discriminate.
  - destruct (asset_check f q) as [[|]|e'] eqn:Hq.
    + split; [discriminate|].
      intros (l1 & p & l2 & E & Hall & Hp). destruct l1 as [|q' l1].
      * injection E as -> _. congruence.
      * injection E as <- _. inversion Hall; congruence.
    + rewrite IH. split.
      * intros (l1 & p & l2 & -> & Hall & Hp). exists (q :: l1), p, l2. auto.
      * intros (l1 & p & l2 & E & Hall & Hp). destruct l1 as [|q' l1].
        -- injection E as -> _. congruence.
        -- injection E as <- ->. inversion Hall. exists l1, p, l2. auto.
    + split.
      * intros H. injection H as <-. exists [], q, l. auto.
      * intros (l1 & p & l2 & E & Hall & Hp). destruct l1 as [|q' l1].
        -- injection E as -> _. congruence.
        -- injection E as <- _. inversion Hall; congruence.
Qed.

(** The probe raises exactly when the first listed path that is not
    rejected has a final extension, no marker, and a size that cannot be
    read: the [os.path.getsize] of the loop is not guarded, so such a
    path hides every finished file listed after it. *)
Theorem find_existing_asset_raises (f : filesystem) (output_dir stem : string)
    (e : exn) :
  find_existing_asset f output_dir stem = Raise e <->
  exists l1 p l2,
    glob f (join output_dir (stem ++ ".*")) = (l1 ++ p :: l2)%list /\
    Forall (fun q => asset_check f q = Return false) l1 /\
    existsb (fun t => contains t (lower p)) TEMP_EXT_CONTAINS = false /\
    in_set (lower (snd (splitext p))) VALID_FINAL_EXTS = true /\
    getsize f p = None /\ e = "OSError".
Proof.
  unfold find_existing_asset. rewrite first_asset_raise.
  split; intros (l1 & p & l2 & E & Hall & H); exists l1, p, l2;
    (split; [exact E|]); (split; [exact Hall|]); now apply asset_check_raise.
Qed.

Example probe_hidden_by_unreadable :
  find_existing_asset Scenario2.disk_unreadable "downloads" "p3" = Raise "OSError" /\
  asset_check Scenario2.disk_unreadable "downloads/p3.mp4" = Return true.
Proof. split; reflexivity. Qed.

End ProbeErrors.

(** ** Paths built and taken apart by the task *)

Module PathFacts.
Import PyStr PosixPath Py Glob World Descarga Spec StrFacts MarkerFacts.

Lemma rfind_app (c : ascii) (a b : string) :
  rfind c (a ++ b) =
  if (0 <=? rfind c b)%Z then (Z.of_nat (String.length a) + rfind c b)%Z
  else rfind c a.
Proof.
  induction a as [|x a IH].
  - cbn [append String.length rfind]. pose proof (rfind_ge c b).
    destruct (0 <=? rfind c b)%Z eqn:E; [lia|].
    apply Z.leb_gt in E. lia.
  - cbn [append String.length rfind]. rewrite IH.
    destruct (0 <=? rfind c b)%Z eqn:E.
    + apply Z.leb_le in E.
      replace (0 <=? Z.of_nat (String.length a) + rfind c b)%Z with true
        by (symmetry; apply Z.leb_le; lia).
      lia.
    + reflexivity.
Qed.

Lemma rfind_absent (c : ascii) (s : string) :
  contains (String c "") s = false -> rfind c s = (-1)%Z.
Proof.
  induction s as [|a s IH]; [reflexivity|].
  cbn [contains prefix]. intros H. apply orb_false_iff in H.
  destruct H as [H1 H2]. cbn [rfind]. rewrite (IH H2).
  replace (0 <=? -1)%Z with false by reflexivity.
  destruct (ascii_dec c a) as [->|Hne].
  - destruct s; discriminate.
  - destruct (Ascii.eqb a c) eqn:E; [|reflexivity].
    apply Ascii.eqb_eq in E. congruence.
Qed.

Lemma take_app_length (a b : string) : take (String.length a) (a ++ b) = a.
Proof. induction a as [|x a IH]; cbn; [now destruct b | now rewrite IH]. Qed.

Lemma drop_app_length (a b : string) : drop (String.length a) (a ++ b) = b.
Proof. induction a as [|x a IH]; cbn; [reflexivity | exact IH]. Qed.

Lemma length_app (a b : string) :
  String.length (a ++ b) = (String.length a + String.length b)%nat.
Proof. induction a as [|x a IH]; cbn; [reflexivity | now rewrite IH]. Qed.

Lemma get_app_length (a : string) (c : ascii) (b : string) :
  String.get (String.length a) (a ++ String c b) = Some c.
Proof. induction a as [|x a IH]; cbn; [reflexivity | exact IH]. Qed.

(** The scan of [splitext] over a file name finds a character that is not
    a dot exactly when the name is not made of dots only. *)
Lemma splitext_scan_name (pre s rest : string) :
  splitext_scan (pre ++ s ++ rest) (String.length pre) (String.length s)
  = negb (all_char extsep s).
Proof.
  revert pre. induction s as [|c s IH]; intros pre; [reflexivity|].
  cbn [String.length splitext_scan append all_char].
  rewrite get_app_length.
  destruct (Ascii.eqb c extsep) eqn:E; cbn [negb andb]; [|reflexivity].
  replace (pre ++ String c (s ++ rest)) with ((pre ++ String c "") ++ s ++ rest)
    by (rewrite append_assoc; reflexivity).
  replace (S (String.length pre)) with (String.length (pre ++ String c ""))
    by (rewrite length_app; cbn; lia).
  apply IH.
Qed.

Lemma endswith_app (t a : string) : endswith t (a ++ t) = true.
Proof.
  induction a as [|x a IH]; cbn [append].
  - destruct t; cbn [endswith]; rewrite String.eqb_refl; reflexivity.
  - cbn [endswith]. rewrite IH. apply orb_true_r.
Qed.

Lemma all_char_app_false (c x : ascii) (u v : string) :
  x <> c -> all_char c (u ++ String x v) = false.
Proof.
  intros Hx. induction u as [|a u IH]; cbn [append all_char].
  - destruct (Ascii.eqb x c) eqn:E; [|reflexivity].
    apply Ascii.eqb_eq in E. contradiction.
  - rewrite IH. apply andb_false_r.
Qed.

(** A directory name that is not empty and does not end with the
    separator ends with another character. *)
Lemma plain_dir_last (d : string) :
  truthy d = true -> endswith "/" d = false ->
  exists u x, d = u ++ String x "" /\ x <> sep.
Proof.
  intros Ht He. destruct (nonempty_last d) as (u & x & E).
  { intros ->. discriminate. }
  exists u, x. split; [exact E|]. intros ->.
  rewrite E in He. unfold sep in He.
  change (String "/" "") with "/" in He. now rewrite endswith_app in He.
Qed.

(** An item name without separator, below a directory name that is not
    empty and does not end with one: [a] is the suffix of the file name. *)
Section Desired.
Variables (d s ext : string).
Hypothesis Hd : truthy d = true.
Hypothesis Hend : endswith "/" d = false.
Hypothesis Hs : contains "/" s = false.
Hypothesis Hext : contains "/" ext = false.

Lemma join_plain : join d (s ++ ext) = d ++ String sep (s ++ ext).
Proof.
  unfold join. rewrite Hd, Hend. cbn [negb orb].
  assert (H : startswith "/" (s ++ ext) = false).
  { unfold startswith.
    destruct (String.prefix "/" (s ++ ext)) eqn:E; [|reflexivity].
    assert (Hc : contains "/" (s ++ ext) = true) by now apply contains_prefix.
    apply contains_inv in Hc. destruct Hc as (a & b & Hc).
    exfalso. clear E.
    assert (Hr : rfind sep (s ++ ext) = (-1)%Z).
    { rewrite rfind_app, (rfind_absent sep ext Hext). cbn.
      now apply rfind_absent. }
    rewrite Hc in Hr. change "/" with (String sep "") in Hr.
    rewrite rfind_app in Hr. cbn [append] in Hr.
    pose proof (rfind_ge sep b). cbn [rfind] in Hr.
    destruct (0 <=? rfind sep b)%Z eqn:E1; cbn in Hr.
    - apply Z.leb_le in E1.
      replace (0 <=? rfind sep b + 1)%Z with true in Hr
        by (symmetry; apply Z.leb_le; lia).
      lia.
    - cbn in Hr. lia. }
  rewrite H. reflexivity.
Qed.

Lemma rfind_sep_plain :
  rfind sep (d ++ String sep (s ++ ext)) = Z.of_nat (String.length d).
Proof.
  rewrite rfind_app. cbn [rfind].
  assert (Hr : rfind sep (s ++ ext) = (-1)%Z).
  { rewrite rfind_app, (rfind_absent sep ext Hext). cbn.
    now apply rfind_absent. }
  rewrite Hr. cbn. lia.
Qed.

Lemma dirname_plain : dirname (d ++ String sep (s ++ ext)) = d.
Proof.
  unfold dirname, split. cbn [fst]. rewrite rfind_sep_plain.
  unfold slice_to.
  replace (Z.to_nat (Z.of_nat (String.length d) + 1))
    with (String.length (d ++ String sep "")) by (rewrite length_app; cbn; lia).
  replace (d ++ String sep (s ++ ext)) with ((d ++ String sep "") ++ s ++ ext)
    by (rewrite append_assoc; reflexivity).
  rewrite take_app_length.
  destruct (plain_dir_last d Hd Hend) as (u & x & -> & Hx).
  replace ((u ++ String x "") ++ String sep "") with (u ++ String x (String sep ""))
    by (rewrite append_assoc; reflexivity).
  rewrite (all_char_app_false sep x u _ Hx).
  replace (truthy (u ++ String x (String sep ""))) with true
    by (destruct u; reflexivity).
  cbn [negb andb]. rewrite (rstrip_keeps sep x u _ Hx).
  cbn [rstrip]. now rewrite Ascii.eqb_refl.
Qed.

Lemma basename_plain : basename (d ++ String sep (s ++ ext)) = s ++ ext.
Proof.
  unfold basename. rewrite rfind_sep_plain. unfold slice_from.
  replace (Z.to_nat (Z.of_nat (String.length d) + 1))
    with (String.length (d ++ String sep "")) by (rewrite length_app; cbn; lia).
  replace (d ++ String sep (s ++ ext)) with ((d ++ String sep "") ++ s ++ ext)
    by (rewrite append_assoc; reflexivity).
  apply drop_app_length.
Qed.

End Desired.

(** [os.path.splitext] of the expected mp4 path gives back the path
    without [.mp4], provided the item name is not made of dots only. *)
Lemma splitext_desired (d s : string) :
  truthy d = true -> endswith "/" d = false ->
  contains "/" s = false -> all_char extsep s = false ->
  splitext (d ++ String sep (s ++ ".mp4")) = (d ++ String sep s, ".mp4").
Proof.
  intros Hd Hend Hs Hdots. unfold splitext.
  rewrite (rfind_sep_plain d s ".mp4" Hs eq_refl).
  assert (Hdot : rfind extsep (d ++ String sep (s ++ ".mp4"))
                 = Z.of_nat (String.length (d ++ String sep s))).
  { replace (d ++ String sep (s ++ ".mp4")) with ((d ++ String sep s) ++ ".mp4")
      by (rewrite append_assoc; reflexivity).
    rewrite rfind_app. cbn. lia. }
  rewrite Hdot, length_app. cbn [String.length].
  replace (Z.of_nat (String.length d) <? Z.of_nat (String.length d + S (String.length s)))%Z
    with true by (symmetry; apply Z.ltb_lt; lia).
  replace (Z.to_nat (Z.of_nat (String.length d) + 1))
    with (String.length (d ++ String sep "")) by (rewrite length_app; cbn; lia).
  replace (Z.to_nat (Z.of_nat (String.length d + S (String.length s))
                     - (Z.of_nat (String.length d) + 1)))
    with (String.length s) by lia.
  replace (d ++ String sep (s ++ ".mp4")) with ((d ++ String sep "") ++ s ++ ".mp4")
    by (rewrite append_assoc; reflexivity).
  rewrite splitext_scan_name, Hdots. cbn [negb andb].
  unfold slice_to, slice_from.
  replace (Z.to_nat (Z.of_nat (String.length d + S (String.length s))))
    with (String.length ((d ++ String sep "") ++ s))
    by (rewrite !length_app; cbn; lia).
  replace ((d ++ String sep "") ++ s ++ ".mp4")
    with (((d ++ String sep "") ++ s) ++ ".mp4")
    by (rewrite (append_assoc (d ++ String sep "")); reflexivity).
  rewrite take_app_length, drop_app_length.
  rewrite (append_assoc d). reflexivity.
Qed.

(** [ensure_mp4_final_path] on the expected mp4 path of an item. *)
Lemma ensure_mp4_recomputes (f : filesystem) (d s : string) :
  truthy d = true -> endswith "/" d = false ->
  contains "/" s = false -> all_char extsep s = false ->
  ensure_mp4_final_path f (join d (s ++ ".mp4")) =
    if path_exists f (join d (s ++ ".mp4")) then Return (join d (s ++ ".mp4"))
    else bind (find_existing_asset f d s)
           (fun r => Return (or_else r (join d (s ++ ".mp4")))).
Proof.
  intros Hd Hend Hs Hdots.
  rewrite (join_plain d s ".mp4" Hd Hend Hs eq_refl).
  unfold ensure_mp4_final_path.
  rewrite (splitext_desired d s Hd Hend Hs Hdots).
  destruct (path_exists f _); [reflexivity|].
  rewrite (dirname_plain d s ".mp4" Hd Hend Hs eq_refl), Hd.
  replace (d ++ String sep s) with (d ++ String sep (s ++ ""))
    by (now rewrite append_nil_r).
  rewrite (basename_plain d s "" Hs eq_refl), append_nil_r.
  reflexivity.
Qed.

(** The verification searches where the first probe searched: for an
    item name without separator and not made of dots only, below a
    directory name that is not empty and does not end with a separator,
    [ensure_mp4_final_path] returns the expected mp4 path when it exists,
    and otherwise what [find_existing_asset] finds for the same directory
    and item name, the expected path when it finds nothing. *)
Theorem ensure_mp4_final_path_same_probe (f : filesystem) (d s : string) :
  truthy d = true -> endswith "/" d = false ->
  contains "/" s = false -> all_char extsep s = false ->
  ensure_mp4_final_path f (join d (s ++ ".mp4")) =
    if path_exists f (join d (s ++ ".mp4")) then Return (join d (s ++ ".mp4"))
    else bind (find_existing_asset f d s)
           (fun r => Return (or_else r (join d (s ++ ".mp4")))).
Proof. exact (ensure_mp4_recomputes f d s). Qed.

Lemma ensure_mp4_final_path_same_probe_witness :
  ensure_mp4_final_path Scenario2.disk_p2_webm (join "downloads" ("p2" ++ ".mp4"))
  = if path_exists Scenario2.disk_p2_webm (join "downloads" ("p2" ++ ".mp4"))
    then Return (join "downloads" ("p2" ++ ".mp4"))
    else bind (find_existing_asset Scenario2.disk_p2_webm "downloads" "p2")
           (fun r => Return (or_else r (join "downloads" ("p2" ++ ".mp4")))).
Proof.
  apply (ensure_mp4_final_path_same_probe Scenario2.disk_p2_webm "downloads" "p2");
    reflexivity.
Defined.

End PathFacts.

(** ** What [download_one] returns *)

Module OutcomeFacts.
Import PyStr PosixPath Py Glob World Descarga Spec Spec2 StrFacts ProbeFacts
  PathFacts.

Section Task.
Variable rt : runtime.
Variables (url output_dir final_stem : string) (ydl_opts : dict).

(** The [try] statement returns [None] only after a whole session, and
    otherwise an error outcome; its calls are those of one session. *)
Lemma fetching_cases (w : world) :
  exists w' r,
    fetching rt url ydl_opts w = (w', Return r) /\
    ((r = None /\ calls w' = (calls w ++ full_session ydl_opts url)%list) \/
     (exists msg l,
        r = Some ("ERROR", msg, None, None) /\
        calls w' = (calls w ++ l)%list /\ one_session ydl_opts url l)).
Proof.
  unfold fetching, try_except, with_YoutubeDL, fetch_body, mbind, extract_info,
    download, ret, one_session, full_session.
  destruct (ydl_open rt w ydl_opts) as [[]|e].
  - destruct (ydl_extract_info rt _ ydl_opts url) as [[info|]|e].
    + destruct (ydl_download rt _ ydl_opts url) as [f2 [[]|e]];
        destruct (ydl_close rt _) as [[]|e'];
        eexists _, _; (split; [reflexivity|]); cbn [calls log set_fs];
        rewrite <- ?app_assoc; cbn [app]; eauto 10.
    + destruct (ydl_close rt _) as [[]|e'];
        eexists _, _; (split; [reflexivity|]); cbn [calls log set_fs];
        rewrite <- ?app_assoc; cbn [app]; eauto 10.
    + destruct (ydl_close rt _) as [[]|e'];
        eexists _, _; (split; [reflexivity|]); cbn [calls log set_fs];
        rewrite <- ?app_assoc; cbn [app]; eauto 10.
  - eexists _, _. split; [reflexivity|]. cbn [calls log]. eauto 10.
Qed.

(** The engine is used for at most one session per item: whatever
    [download_one] returns or raises, it added to the log of engine calls
    either nothing or the calls of a single session, so at most one
    download; a transfer is never tried again. *)
Theorem download_one_single_session (w w' : world) (r : result outcome) :
  download_one rt url output_dir final_stem ydl_opts w = (w', r) ->
  calls w' = calls w \/
  exists l, calls w' = (calls w ++ l)%list /\ one_session ydl_opts url l.
Proof.
  unfold download_one, mbind at 1 2, makedirs, lift_fs.
  destruct (os_makedirs rt (fs w) output_dir) as [f1|e];
    [|intros H; injection H as <- _; now left].
  cbn [fs set_fs].
  destruct (find_existing_asset f1 output_dir final_stem) as [existing|e];
    [|intros H; injection H as <- _; now left].
  destruct (opt_truthy existing).
  - unfold mbind, read_fs, ret. intros H. injection H as <- _. now left.
  - unfold mbind at 1.
    destruct (fetching_cases (set_fs f1 w)) as (w2 & early & Hf & Hcases).
    rewrite Hf. cbn [calls set_fs] in Hcases.
    assert (Hl : exists l, calls w2 = (calls w ++ l)%list /\
                           one_session ydl_opts url l).
    { destruct Hcases as [[_ Hc]|(msg & l & _ & Hc & Hs)].
      - exists (full_session ydl_opts url). split; [exact Hc|].
        right. right. reflexivity.
      - eauto. }
    destruct early as [o|].
    + unfold ret. intros H. injection H as <- _. now right.
    + unfold mbind, lift_fs, read_fs, ret.
      destruct (ensure_mp4_final_path (fs w2) _) as [final_path|e];
        [|intros H; injection H as <- _; now right].
      destruct (path_exists (fs w2) final_path && size_truthy _);
        [destruct (endswith ".mp4" (lower final_path))|];
        intros H; injection H as <- _; now right.
Qed.

(** Every outcome is one of three kinds.  SKIPPED carries a path and its
    positive size and no engine call was made.  OK carries a path that
    exists with the non-zero size reported, and was reached through a
    whole engine session.  ERROR carries neither path nor size. *)
Theorem download_one_outcome (w w' : world) (o : outcome) :
  download_one rt url output_dir final_stem ydl_opts w = (w', Return o) ->
  (status_of o = "SKIPPED" /\
   calls w' = calls w /\
   exists p n, final_path_of o = Some p /\ size_of o = Some n /\
               (0 < n)%Z /\ getsize (fs w') p = Some n) \/
  (status_of o = "OK" /\
   calls w' = (calls w ++ full_session ydl_opts url)%list /\
   exists p n, final_path_of o = Some p /\ size_of o = Some n /\
               n <> 0%Z /\ path_exists (fs w') p = true /\
               getsize (fs w') p = Some n) \/
  (status_of o = "ERROR" /\ final_path_of o = None /\ size_of o = None).
Proof.
  unfold download_one, mbind at 1 2, makedirs, lift_fs.
  destruct (os_makedirs rt (fs w) output_dir) as [f1|e]; [|discriminate].
  cbn [fs set_fs].
  destruct (find_existing_asset f1 output_dir final_stem) as [existing|e] eqn:Hfind;
    [|discriminate].
  destruct (opt_truthy existing) eqn:Htr.
  - destruct existing as [p|]; [|discriminate].
    unfold mbind, read_fs, ret. cbn [fs set_fs]. intros H. injection H as <- <-.
    left. split; [reflexivity|]. split; [reflexivity|].
    unfold find_existing_asset in Hfind.
    apply first_asset_some in Hfind. destruct Hfind as (l1 & l2 & _ & _ & Hp).
    apply asset_check_true in Hp. destruct Hp as ((n & Hn & Hpos) & _).
    exists p, n. unfold filesize. cbn [final_path_of size_of fst snd fs set_fs].
    rewrite Hn. auto.
  - unfold mbind at 1.
    destruct (fetching_cases (set_fs f1 w)) as (w2 & early & Hf & Hcases).
    rewrite Hf. cbn [calls set_fs] in Hcases.
    destruct Hcases as [[-> Hc]|(msg & l & -> & _)].
    + unfold mbind, lift_fs, read_fs, ret.
      destruct (ensure_mp4_final_path (fs w2) _) as [final_path|e]; [|discriminate].
      destruct (path_exists (fs w2) final_path) eqn:Hex; cbn [andb].
      * unfold filesize.
        destruct (getsize (fs w2) final_path) as [n|] eqn:Hn; cbn [size_truthy].
        -- destruct (n =? 0)%Z eqn:Hz; cbn [negb].
           ++ intros H. injection H as <- <-. right. right. repeat split.
           ++ apply Z.eqb_neq in Hz.
              destruct (endswith ".mp4" (lower final_path));
                intros H; injection H as <- <-; right; left;
                (split; [reflexivity|]); (split; [exact Hc|]);
                exists final_path, n; cbn; auto.
        -- intros H. injection H as <- <-. right. right. repeat split.
      * intros H. injection H as <- <-. right. right. repeat split.
    + unfold ret. intros H. injection H as <- <-. right. right. repeat split.
Qed.

End Task.

Lemma download_one_outcome_witness :
  exists w',
    download_one Scenario2.fetches_mp4 "https://youtu.be/abc" "downloads" "p2" []
      (Scenario.start Scenario.disk_p1)
    = (w', Return ("OK", "✅ OK: downloads/p2.mp4", Some "downloads/p2.mp4",
                   Some 2048%Z)) /\
    calls w' = full_session [] "https://youtu.be/abc".
Proof.
  eexists. split; [cbn; reflexivity|].
  match goal with
  | |- calls ?w' = _ =>
      destruct (download_one_outcome Scenario2.fetches_mp4 "https://youtu.be/abc"
                  "downloads" "p2" [] (Scenario.start Scenario.disk_p1) w'
                  ("OK", "✅ OK: downloads/p2.mp4", Some "downloads/p2.mp4",
                   Some 2048%Z) ltac:(cbn; reflexivity))
        as [(H & _)|[(_ & H & _)|(H & _)]]
  end; [discriminate | exact H | discriminate].
Defined.

Lemma download_one_single_session_witness :
  calls (fst (download_one Scenario.offline "https://youtu.be/abc" "downloads"
                "p2" [] (Scenario.start Scenario.disk_p1))) = [] \/
  exists l,
    calls (fst (download_one Scenario.offline "https://youtu.be/abc" "downloads"
                  "p2" [] (Scenario.start Scenario.disk_p1))) = ([] ++ l)%list /\
    one_session [] "https://youtu.be/abc" l.
Proof.
  apply (download_one_single_session Scenario.offline "https://youtu.be/abc"
           "downloads" "p2" [] (Scenario.start Scenario.disk_p1) _
           (snd (download_one Scenario.offline "https://youtu.be/abc" "downloads"
                   "p2" [] (Scenario.start Scenario.disk_p1)))).
  apply surjective_pairing.
Defined.

End OutcomeFacts.

(** ** The verification after the download *)

Module VerifyFacts.
Import PyStr PosixPath Py Glob World Descarga Spec Spec2 StrFacts ProbeFacts
  PathFacts.

Lemma desired_ends_mp4 (d s : string) :
  endswith ".mp4" (lower (join d (s ++ ".mp4"))) = true.
Proof.
  assert (H : exists a, join d (s ++ ".mp4") = a ++ ".mp4").
  { unfold join. destruct (startswith "/" (s ++ ".mp4")); [now exists s|].
    destruct (negb (truthy d) || endswith "/" d).
    - exists (d ++ s). now rewrite append_assoc.
    - exists (d ++ "/" ++ s). now rewrite !append_assoc. }
  destruct H as [a ->]. rewrite lower_app. apply endswith_app.
Qed.

Section Task.
Variable rt : runtime.
Variables (url output_dir final_stem : string) (ydl_opts : dict).

(** Past the probe and a whole engine session, [download_one] is the
    verification of the disk the engine left. *)
Lemma download_one_verifying (w w2 : world) (f1 : filesystem)
    (r : option string) :
  os_makedirs rt (fs w) output_dir = Return f1 ->
  find_existing_asset f1 output_dir final_stem = Return r ->
  opt_truthy r = false ->
  fetching rt url ydl_opts (set_fs f1 w) = (w2, Return None) ->
  download_one rt url output_dir final_stem ydl_opts w =
    match ensure_mp4_final_path (fs w2)
            (join output_dir (final_stem ++ ".mp4")) with
    | Raise e => (w2, Raise e)
    | Return final_path =>
        if path_exists (fs w2) final_path
           && size_truthy (filesize (fs w2) final_path)
        then
          if endswith ".mp4" (lower final_path)
          then (w2, Return ("OK", "✅ OK: " ++ final_path, Some final_path,
                            filesize (fs w2) final_path))
          else (w2, Return ("OK",
                            "✅ OK (no MP4 por falta de ffmpeg): " ++ final_path,
                            Some final_path, filesize (fs w2) final_path))
        else (w2, Return ("ERROR",
               "⚠️ Descargado pero no se encontró archivo final. Revisar ffmpeg/post-procesado.",
               None, None))
    end.
Proof.
  intros Hmk Hfind Hr Hf.
  unfold download_one, mbind at 1 2, makedirs, lift_fs.
  rewrite Hmk. cbn [fs set_fs]. rewrite Hfind, Hr.
  unfold mbind at 1. rewrite Hf.
  unfold mbind, lift_fs, read_fs, ret.
  destruct (ensure_mp4_final_path (fs w2) _) as [final_path|e]; [|reflexivity].
  destruct (path_exists (fs w2) final_path && size_truthy _);
    [destruct (endswith ".mp4" (lower final_path))|]; reflexivity.
Qed.

(** After a whole engine session, when the expected mp4 file exists with a
    size other than zero, the outcome is OK with that path, that size and
    the plain message. *)
Theorem download_one_ok_normalized (w w2 : world) (f1 : filesystem)
    (r : option string) (n : Z) :
  os_makedirs rt (fs w) output_dir = Return f1 ->
  find_existing_asset f1 output_dir final_stem = Return r ->
  opt_truthy r = false ->
  fetching rt url ydl_opts (set_fs f1 w) = (w2, Return None) ->
  path_exists (fs w2) (join output_dir (final_stem ++ ".mp4")) = true ->
  getsize (fs w2) (join output_dir (final_stem ++ ".mp4")) = Some n ->
  n <> 0%Z ->
  download_one rt url output_dir final_stem ydl_opts w =
    (w2, Return ("OK", "✅ OK: " ++ join output_dir (final_stem ++ ".mp4"),
                 Some (join output_dir (final_stem ++ ".mp4")), Some n)).
Proof.
  intros Hmk Hfind Hr Hf Hex Hn Hz.
  rewrite (download_one_verifying w w2 f1 r Hmk Hfind Hr Hf).
  unfold ensure_mp4_final_path.
  destruct (splitext (join output_dir (final_stem ++ ".mp4"))) as [base e].
  rewrite Hex. unfold filesize. rewrite Hex, Hn. cbn [size_truthy andb].
  apply Z.eqb_neq in Hz. rewrite Hz. cbn [negb].
  now rewrite desired_ends_mp4.
Qed.

(** After a whole engine session that left no mp4 file under the expected
    name: when the probe finds another finished file for the item, and
    that file exists, the outcome is OK with that file and its positive
    size, the message telling whether its extension is mp4; when the
    probe finds nothing the outcome is ERROR without path or size. *)
Theorem download_one_other_container (w w2 : world) (f1 : filesystem)
    (r : option string) :
  truthy output_dir = true -> endswith "/" output_dir = false ->
  contains "/" final_stem = false -> all_char extsep final_stem = false ->
  os_makedirs rt (fs w) output_dir = Return f1 ->
  find_existing_asset f1 output_dir final_stem = Return r ->
  opt_truthy r = false ->
  fetching rt url ydl_opts (set_fs f1 w) = (w2, Return None) ->
  path_exists (fs w2) (join output_dir (final_stem ++ ".mp4")) = false ->
  (forall p,
     find_existing_asset (fs w2) output_dir final_stem = Return (Some p) ->
     path_exists (fs w2) p = true ->
     exists n,
       (0 < n)%Z /\ getsize (fs w2) p = Some n /\
       download_one rt url output_dir final_stem ydl_opts w =
         (w2, Return ("OK",
                      (if endswith ".mp4" (lower p) then "✅ OK: "
                       else "✅ OK (no MP4 por falta de ffmpeg): ") ++ p,
                      Some p, Some n))) /\
  (find_existing_asset (fs w2) output_dir final_stem = Return None ->
   download_one rt url output_dir final_stem ydl_opts w =
     (w2, Return ("ERROR",
        "⚠️ Descargado pero no se encontró archivo final. Revisar ffmpeg/post-procesado.",
        None, None))).
Proof.
  intros Hd Hend Hs Hdots Hmk Hfind Hr Hf Hno.
  pose proof (download_one_verifying w w2 f1 r Hmk Hfind Hr Hf) as Hv.
  rewrite (ensure_mp4_recomputes (fs w2) output_dir final_stem
             Hd Hend Hs Hdots), Hno in Hv.
  split.
  - intros p Hp Hex.
    pose proof Hp as Hp'. unfold find_existing_asset in Hp'.
    apply first_asset_some in Hp'. destruct Hp' as (l1 & l2 & _ & _ & Hc).
    assert (Htr : truthy p = true).
    { destruct p; [|reflexivity].
      apply asset_check_true in Hc. destruct Hc as (_ & _ & Hc).
      rewrite splitext_empty in Hc. simpl in Hc.
      repeat (destruct Hc as [Hc|Hc]; [discriminate|]). destruct Hc. }
    apply asset_check_true in Hc. destruct Hc as ((n & Hn & Hpos) & _).
    exists n. split; [exact Hpos|]. split; [exact Hn|].
    rewrite Hv, Hp. cbn [bind or_else]. rewrite Htr, Hex.
    unfold filesize. rewrite Hn. cbn [size_truthy andb].
    replace (n =? 0)%Z with false by (symmetry; apply Z.eqb_neq; lia).
    cbn [negb]. destruct (endswith ".mp4" (lower p)); reflexivity.
  - intros Hnone. rewrite Hv, Hnone. cbn [bind or_else]. rewrite Hno.
    reflexivity.
Qed.

End Task.

Lemma download_one_ok_normalized_witness :
  download_one Scenario2.fetches_mp4 "https://youtu.be/abc" "downloads" "p2" []
    (Scenario.start Scenario.disk_p1)
  = (log CallClose (log (CallDownload "https://youtu.be/abc")
       (set_fs Scenario2.disk_p2_done
          (log (CallExtractInfo "https://youtu.be/abc") (log (CallOpen [])
             (set_fs Scenario.disk_p1 (Scenario.start Scenario.disk_p1)))))),
     Return ("OK", "✅ OK: " ++ join "downloads" ("p2" ++ ".mp4"),
             Some (join "downloads" ("p2" ++ ".mp4")), Some 2048%Z)).
Proof.
  apply (download_one_ok_normalized Scenario2.fetches_mp4 "https://youtu.be/abc"
           "downloads" "p2" [] (Scenario.start Scenario.disk_p1) _
           Scenario.disk_p1 None 2048%Z); try reflexivity.
  discriminate.
Defined.

Lemma download_one_other_container_witness :
  exists n,
    (0 < n)%Z /\
    getsize Scenario2.disk_p2_webm "downloads/p2.webm" = Some n /\
    download_one Scenario2.fetches_webm "https://youtu.be/abc" "downloads" "p2" []
      (Scenario.start Scenario.empty_disk)
    = (log CallClose (log (CallDownload "https://youtu.be/abc")
         (set_fs Scenario2.disk_p2_webm
            (log (CallExtractInfo "https://youtu.be/abc") (log (CallOpen [])
               (set_fs Scenario.empty_disk (Scenario.start Scenario.empty_disk)))))),
       Return ("OK",
               (if endswith ".mp4" (lower "downloads/p2.webm") then "✅ OK: "
                else "✅ OK (no MP4 por falta de ffmpeg): ") ++ "downloads/p2.webm",
               Some "downloads/p2.webm", Some n)).
Proof.
  destruct (download_one_other_container Scenario2.fetches_webm
              "https://youtu.be/abc" "downloads" "p2" []
              (Scenario.start Scenario.empty_disk)
              (log CallClose (log (CallDownload "https://youtu.be/abc")
                 (set_fs Scenario2.disk_p2_webm
                    (log (CallExtractInfo "https://youtu.be/abc") (log (CallOpen [])
                       (set_fs Scenario.empty_disk
                          (Scenario.start Scenario.empty_disk)))))))
              Scenario.empty_disk None
              eq_refl eq_refl eq_refl eq_refl eq_refl eq_refl eq_refl eq_refl eq_refl)
    as [H _].
  apply (H "downloads/p2.webm"); reflexivity.
Defined.

End VerifyFacts.

(** ** The input of the batch *)

Module InputFacts.
Import PyStr PosixPath Py Glob World Descarga DescargaInput Spec.





(** [read_excel] returns only for a sheet that is named, present in the
    workbook and at least thirteen columns wide; in particular, called
    with no sheet name it always raises. *)
Theorem read_excel_returns_only (workbook : result (list (string * frame)))
    (sheet : option string) (rows : list (string * string)) :
  read_excel workbook sheet = Return rows ->
  exists name sheets df,
    sheet = Some name /\ workbook = Return sheets /\
    Scenario.assoc name sheets = Some df /\ (13 <= ncols df)%nat.
Proof.
  unfold read_excel, pd_read_excel, bind.
  destruct workbook as [sheets|e]; [|discriminate].
  destruct sheet as [name|]; [|discriminate].
  destruct (Scenario.assoc name sheets) as [df|] eqn:Ea; [|discriminate].
  destruct (ncols df <? 13)%nat eqn:En; [discriminate|].
  apply Nat.ltb_ge in En. intros _. exists name, sheets, df. auto.
Qed.

Lemma read_excel_returns_only_witness :
  exists name sheets df,
    Some "Hoja1" = Some name /\ Scenario2.workbook_penales = Return sheets /\
    Scenario.assoc name sheets = Some df /\ (13 <= ncols df)%nat.
Proof.
  apply (read_excel_returns_only Scenario2.workbook_penales (Some "Hoja1")
           [("p1", "https://youtu.be/abc")]).
  reflexivity.
Defined.



End InputFacts.

(** ** The batch loop of [main] *)

Module BatchFacts.
Import PyStr PosixPath Py Glob World Descarga DescargaInput Spec Spec2 SummaryFacts.

Section Batch.
Variable rt : runtime.
Variable a : args.

(** Incomplete rows are reported and skipped without touching the world. *)
Lemma main_loop_incomplete_prefix (pre rest : list (string * string)) :
  Forall (fun r => incomplete (fst r) (snd r) = true) pre ->
  forall rows ok_count w,
    main_loop rt a (pre ++ rest)%list rows ok_count w =
    main_loop rt a rest
      (rows ++ map (fun r => incomplete_row (now_isoformat rt w) (fst r) (snd r)) pre)
      ok_count w.
Proof.
  induction 1 as [|[id0 url0] pre Hr _ IH]; intros rows ok_count w.
  - cbn. now rewrite app_nil_r.
  - cbn [app main_loop map fst snd]. cbn [fst snd] in Hr.
    unfold incomplete in Hr. rewrite Hr.
    rewrite IH, <- app_assoc. reflexivity.
Qed.

(** The loop keeps the order of the input: the rows it appends carry, one
    by one, the stripped id and url of the rows of the frame. *)
Lemma main_loop_rows (df : list (string * string)) :
  forall rows0 ok0 w w' rows ok,
    main_loop rt a df rows0 ok0 w = (w', Return (rows, ok)) ->
    map internal_penalty_id rows
      = (map internal_penalty_id rows0 ++ map (fun r => strip (fst r)) df)%list /\
    map url rows = (map url rows0 ++ map (fun r => strip (snd r)) df)%list.
Proof.
  induction df as [|[id0 url0] df IH]; intros rows0 ok0 w w' rows ok H.
  - cbn in H. injection H as _ <- _. cbn. now rewrite !app_nil_r.
  - cbn [main_loop] in H.
    destruct (negb (truthy (strip id0)) || negb (truthy (strip url0))
              || String.eqb (lower (strip url0)) "nan").
    + apply IH in H. destruct H as [H1 H2].
      rewrite H1, H2, !map_app, <- !app_assoc. split; reflexivity.
    + unfold mbind at 1 in H.
      destruct (build_ydl_opts rt _ _ _ _ _ _ w) as [w1 [opts|e]]; [|discriminate].
      unfold mbind at 1 in H.
      destruct (download_one rt _ _ _ opts w1) as [w2 [[[[st msg] fp] sz]|e]];
        [|discriminate].
      apply IH in H. destruct H as [H1 H2].
      rewrite H1, H2, !map_app, <- !app_assoc. split; reflexivity.
Qed.

End Batch.

Lemma count_status_bounds (st : string) (rows : list report_row) :
  (0 <= count_status st rows <= Z.of_nat (List.length rows))%Z.
Proof.
  unfold count_status.
  pose proof (filter_length_le (fun r => String.eqb (status r) st) rows). lia.
Qed.

(** The report follows the input: [main] writes one row per row of the
    frame, in the order of the frame, each with the stripped id and url of
    its input row; the number of successes lies between zero and the
    number of rows, and the two totals add up to it. *)
Theorem main_report_follows_input (rt : runtime) (a : args)
    (df : list (string * string)) (w w' : world)
    (rows : list report_row) (ok_count fail_count : Z) (line : string) :
  main rt a (Return df) w = (w', Return (Summary rows ok_count fail_count line)) ->
  map internal_penalty_id rows = map (fun r => strip (fst r)) df /\
  map url rows = map (fun r => strip (snd r)) df /\
  (0 <= ok_count <= Z.of_nat (List.length df))%Z /\
  (0 <= fail_count)%Z /\
  (ok_count + fail_count = Z.of_nat (List.length df))%Z.
Proof.
  unfold main. intros H. unfold mbind at 1 in H.
  destruct ((if negb (opt_truthy (arg_report a))
             then makedirs rt (arg_output a) else ret tt) w) as [w1 [[]|e]];
    [|discriminate].
  unfold mbind in H.
  destruct (main_loop rt a df [] 0%Z w1) as [w2 [[rows' ok']|e]] eqn:Hl;
    [|discriminate].
  cbn in H. injection H as _ <- <- <- _.
  pose proof (main_loop_rows rt a df _ _ _ _ _ _ Hl) as [H1 H2].
  apply main_loop_counts in Hl. destruct Hl as (added & Hrows & Hlen & ->).
  cbn [app] in Hrows. subst rows'.
  pose proof (count_status_bounds "OK" added) as Hb. rewrite Hlen in Hb.
  cbn [map app] in H1, H2. repeat split; auto; lia.
Qed.

Lemma main_report_follows_input_witness :
  map internal_penalty_id
    [{| timestamp := "2025-01-01T00:00:00"; internal_penalty_id := "p1";
        url := "https://youtu.be/abc"; status := "SKIPPED";
        message := "⏭️ Ya existe: downloads/p1.mp4";
        filepath := Some "downloads/p1.mp4"; size_bytes := Some 1024%Z |}]
  = map (fun r => strip (fst r)) [(" p1 ", "https://youtu.be/abc")].
Proof.
  apply (main_report_follows_input Scenario.offline Scenario.default_args
           [(" p1 ", "https://youtu.be/abc")]
           (Scenario.start Scenario.disk_p1)
           (set_fs Scenario.disk_p1 (Scenario.start Scenario.disk_p1))
           _ 0%Z 1%Z "✅ Éxitos: 0 | ❌ Fallos: 1").
  reflexivity.
Defined.

(** When the input cannot be read, [main] exits with status 1 and makes
    no engine call; before that it has at most created the output
    directory for the default report, and only an error of that creation
    can escape instead. *)
Theorem main_exits_on_unreadable_input (rt : runtime) (a : args) (e : exn)
    (w w' : world) (r : result main_end) :
  main rt a (Raise e) w = (w', r) ->
  calls w' = calls w /\
  (r = Return (Exit 1) \/
   (opt_truthy (arg_report a) = false /\
    exists e', os_makedirs rt (fs w) (arg_output a) = Raise e' /\ r = Raise e')).
Proof.
  unfold main, mbind, ret. destruct (opt_truthy (arg_report a)); cbn [negb].
  - intros H. injection H as <- <-. auto.
  - unfold makedirs. destruct (os_makedirs rt (fs w) (arg_output a)) as [f1|e'].
    + intros H. injection H as <- <-. auto.
    + intros H. injection H as <- <-. split; [reflexivity|]. right. eauto.
Qed.

Lemma main_exits_on_unreadable_input_witness :
  calls (fst (main Scenario.offline Scenario.default_args (Raise "No such file")
                (Scenario.start Scenario.empty_disk))) = [] /\
  (snd (main Scenario.offline Scenario.default_args (Raise "No such file")
          (Scenario.start Scenario.empty_disk)) = Return (Exit 1) \/
   (opt_truthy (arg_report Scenario.default_args) = false /\
    exists e', os_makedirs Scenario.offline Scenario.empty_disk "downloads"
               = Raise e' /\
               snd (main Scenario.offline Scenario.default_args
                      (Raise "No such file")
                      (Scenario.start Scenario.empty_disk)) = Raise e')).
Proof.
  apply (main_exits_on_unreadable_input Scenario.offline Scenario.default_args
           "No such file" (Scenario.start Scenario.empty_disk)).
  apply surjective_pairing.
Defined.

(** Started without a sheet name, [read_excel] never returns, so [main]
    exits with status 1 before any download, whatever the workbook holds. *)
Theorem main_needs_sheet_name (rt : runtime) (a : args)
    (workbook : result (list (string * frame))) (w : world) (f1 : filesystem) :
  arg_sheet a = None ->
  os_makedirs rt (fs w) (arg_output a) = Return f1 ->
  (exists e, read_excel workbook (arg_sheet a) = Raise e) /\
  exists w',
    main rt a (read_excel workbook (arg_sheet a)) w = (w', Return (Exit 1)) /\
    calls w' = calls w.
Proof.
  intros Hs Hmk. rewrite Hs.
  assert (Hr : exists e, read_excel workbook None = Raise e).
  { unfold read_excel, pd_read_excel, bind. destruct workbook; eauto. }
  split; [exact Hr|]. destruct Hr as [e ->].
  unfold main, mbind, ret, makedirs.
  destruct (opt_truthy (arg_report a)); cbn [negb]; [eauto|].
  rewrite Hmk. eauto.
Qed.

Lemma main_needs_sheet_name_witness :
  (exists e, read_excel Scenario2.workbook_penales
               (arg_sheet Scenario.default_args) = Raise e) /\
  exists w',
    main Scenario.offline Scenario.default_args
      (read_excel Scenario2.workbook_penales (arg_sheet Scenario.default_args))
      (Scenario.start Scenario.disk_p1) = (w', Return (Exit 1)) /\
    calls w' = calls (Scenario.start Scenario.disk_p1).
Proof.
  apply (main_needs_sheet_name Scenario.offline Scenario.default_args
           Scenario2.workbook_penales (Scenario.start Scenario.disk_p1)
           Scenario.disk_p1); reflexivity.
Defined.

(** A missing cookie file stops the whole batch: when the output
    directory exists and the named cookie file does not, [main] raises at
    the first row with complete data, after reporting the incomplete rows
    before it, with no engine call and no summary. *)
Theorem main_aborts_on_missing_cookie (rt : runtime) (a : args) (cf : string)
    (pre post : list (string * string)) (id0 url0 : string) (w : world) :
  (forall f, os_makedirs rt f (arg_output a) = Return f) ->
  arg_cookie_file a = Some cf -> truthy cf = true ->
  path_exists (fs w) cf = false ->
  Forall (fun r => incomplete (fst r) (snd r) = true) pre ->
  incomplete id0 url0 = false ->
  exists w',
    main rt a (Return (pre ++ (id0, url0) :: post)%list) w
      = (w', Raise ("Cookie file no encontrado: " ++ cf)) /\
    calls w' = calls w /\ fs w' = fs w.
Proof.
  intros Hmk Hcf Htr Hex Hpre Hrow.
  assert (Hloop : forall w0 rows ok,
            fs w0 = fs w ->
            exists w',
              main_loop rt a (pre ++ (id0, url0) :: post)%list rows ok w0
                = (w', Raise ("Cookie file no encontrado: " ++ cf)) /\
              calls w' = calls w0 /\ fs w' = fs w).
  { intros w0 rows ok Hfs.
    rewrite (main_loop_incomplete_prefix rt a pre _ Hpre).
    cbn [main_loop]. unfold incomplete in Hrow. rewrite Hrow.
    assert (Hb : build_ydl_opts rt (arg_output a) (strip id0) (arg_browser a)
                   (arg_profile a) (arg_cookie_file a)
                   (negb (arg_no_max_quality_mp4 a)) w0
                 = (set_fs (fs w0) w0,
                    Raise ("Cookie file no encontrado: " ++ cf))).
    { unfold build_ydl_opts, mbind, makedirs, read_fs, ret, raise.
      rewrite Hmk. cbn [fs set_fs]. rewrite Hcf. cbn [opt_truthy].
      rewrite Htr.
      destruct (negb (arg_no_max_quality_mp4 a) && ffmpeg_available (fs w0));
        cbn; rewrite Hfs, Hex; reflexivity. }
    unfold mbind at 1. rewrite Hb.
    eexists. split; [reflexivity|]. cbn [calls fs set_fs]. auto. }
  unfold main, mbind at 1.
  destruct (opt_truthy (arg_report a)); cbn [negb].
  - unfold ret at 1. destruct (Hloop w [] 0%Z eq_refl) as (w' & Hl & Hc & Hf).
    unfold mbind. rewrite Hl. eauto.
  - unfold makedirs. rewrite Hmk.
    destruct (Hloop (set_fs (fs w) w) [] 0%Z eq_refl) as (w' & Hl & Hc & Hf).
    unfold mbind. rewrite Hl. eauto.
Qed.

Lemma main_aborts_on_missing_cookie_witness :
  exists w',
    main Scenario.offline Scenario2.args_with_cookie
      (Return ([("", "https://youtu.be/x")] ++ ("p1", "https://youtu.be/abc") :: [])%list)
      (Scenario.start Scenario.empty_disk)
      = (w', Raise ("Cookie file no encontrado: " ++ "cookies.txt")) /\
    calls w' = calls (Scenario.start Scenario.empty_disk) /\
    fs w' = fs (Scenario.start Scenario.empty_disk).
Proof.
  apply (main_aborts_on_missing_cookie Scenario.offline Scenario2.args_with_cookie
           "cookies.txt" [("", "https://youtu.be/x")] [] "p1" "https://youtu.be/abc"
           (Scenario.start Scenario.empty_disk)); try reflexivity.
  repeat constructor.
Defined.

(** Rows with incomplete data cost nothing: when every row of the frame
    lacks its id or its url (or has the url [nan]), [main] reports each as
    ERROR with the message [Datos incompletos], counts no success and as
    many failures as rows, and makes no engine call. *)
Theorem main_all_incomplete (rt : runtime) (a : args)
    (df : list (string * string)) (w w' : world) (r : result main_end) :
  Forall (fun r => incomplete (fst r) (snd r) = true) df ->
  main rt a (Return df) w = (w', r) ->
  calls w' = calls w /\
  ((exists rows line,
      r = Return (Summary rows 0 (Z.of_nat (List.length df)) line) /\
      List.length rows = List.length df /\
      Forall (fun row => status row = "ERROR" /\
                         message row = "❌ Datos incompletos" /\
                         filepath row = None /\ size_bytes row = None) rows) \/
   (opt_truthy (arg_report a) = false /\
    exists e, os_makedirs rt (fs w) (arg_output a) = Raise e /\ r = Raise e)).
Proof.
  intros Hdf.
  assert (Hloop : forall w0,
            main_loop rt a df [] 0%Z w0 =
            (w0, Return (map (fun r => incomplete_row (now_isoformat rt w0)
                                         (fst r) (snd r)) df, 0%Z))).
  { intros w0. rewrite <- (app_nil_r df) at 1.
    rewrite (main_loop_incomplete_prefix rt a df [] Hdf). reflexivity. }
  assert (Hrows : forall ts,
            Forall (fun row => status row = "ERROR" /\
                               message row = "❌ Datos incompletos" /\
                               filepath row = None /\ size_bytes row = None)
              (map (fun r => incomplete_row ts (fst r) (snd r)) df)).
  { intros ts. apply Forall_forall. intros row Hin.
    apply in_map_iff in Hin. destruct Hin as (x & <- & _). repeat split. }
  unfold main, mbind at 1.
  destruct (opt_truthy (arg_report a)); cbn [negb].
  - unfold ret at 1, mbind. rewrite Hloop. unfold ret.
    intros H. injection H as <- <-. split; [reflexivity|]. left.
    eexists _, _. rewrite Z.sub_0_r. split; [reflexivity|].
    split; [apply length_map | apply Hrows].
  - unfold makedirs. destruct (os_makedirs rt (fs w) (arg_output a)) as [f1|e].
    + unfold mbind. rewrite Hloop. unfold ret.
      intros H. injection H as <- <-. split; [reflexivity|]. left.
      eexists _, _. rewrite Z.sub_0_r. split; [reflexivity|].
      split; [apply length_map | apply Hrows].
    + intros H. injection H as <- <-. split; [reflexivity|]. right. eauto.
Qed.

Lemma main_all_incomplete_witness :
  calls (fst (main Scenario.offline Scenario.default_args
                (Return [("", "https://youtu.be/x"); ("p9", "NaN")])
                (Scenario.start Scenario.empty_disk))) = [].
Proof.
  apply (main_all_incomplete Scenario.offline Scenario.default_args
           [("", "https://youtu.be/x"); ("p9", "NaN")]
           (Scenario.start Scenario.empty_disk) _
           (snd (main Scenario.offline Scenario.default_args
                   (Return [("", "https://youtu.be/x"); ("p9", "NaN")])
                   (Scenario.start Scenario.empty_disk)))).
  - repeat constructor.
  - apply surjective_pairing.
Defined.

End BatchFacts.

(** * Further properties of download.py *)

(** ** Parsing the URLs typed by the user *)

Module ParseFacts.
Import PyStr PosixPath Py Glob World Download DownloadInput Spec Spec2.








End ParseFacts.

Module ParseRoundTrip.
Import PyStr PosixPath Py Glob World Download DownloadInput Spec Spec2 ParseFacts.










End ParseRoundTrip.

(** ** The memo table: bound, lookup after a call, exceptions *)

Module CacheDiscipline.
Import PyStr PosixPath Py Glob World Download DownloadInput Spec Spec2 CacheFacts.

Lemma lru_remove_shorter (u : string) (t : lru_table) (v : bool * dict) :
  lru_get u t = Some v ->
  (List.length (lru_remove u t) < List.length t)%nat.
Proof.
  induction t as [|[k x] t IH]; cbn; [discriminate|].
  destruct (String.eqb u k).
  - intros _. pose proof (keys_remove_incl u t) as _.
    assert (H : (List.length (lru_remove u t) <= List.length t)%nat).
    { clear. induction t as [|[k x] t IH]; cbn; [lia|].
      destruct (String.eqb u k); cbn; lia. }
    lia.
  - intros H. cbn. apply IH in H. lia.
Qed.

(** A call of [get_url_info] keeps the table within [maxsize] entries;
    when it returns, the result is stored under the URL, so looking the
    URL up gives that result; when it raises, the table is left as it was
    and the URL is still absent, so the next call inspects again. *)
Theorem get_url_info_table (rt : runtime) (url : string) (w w' : world)
    (r : result (bool * dict)) :
  (List.length (url_info_cache w) <= maxsize)%nat ->
  get_url_info rt url w = (w', r) ->
  (List.length (url_info_cache w') <= maxsize)%nat /\
  (forall v, r = Return v -> lru_get url (url_info_cache w') = Some v) /\
  (forall e, r = Raise e ->
     url_info_cache w' = url_info_cache w /\
     lru_get url (url_info_cache w') = None).
Proof.
  intros Hlen. unfold get_url_info.
  destruct (lru_get url (url_info_cache w)) as [v|] eqn:Eg.
  - intros H. injection H as <- <-. cbn [url_info_cache set_cache].
    split; [|split].
    + cbn [List.length]. pose proof (lru_remove_shorter url _ v Eg). lia.
    + intros v' H. injection H as <-. cbn [lru_get]. now rewrite String.eqb_refl.
    + discriminate.
  - pose proof (body_keeps_cache rt url w) as Hb.
    destruct (get_url_info_body rt url w) as [w1 [v|e]]; cbn [fst] in Hb;
      intros H.
    + assert (Hw : w' = set_cache
                (firstn maxsize ((url, v) :: url_info_cache w1)) w1)
        by congruence.
      assert (Hr : r = Return v) by congruence.
      subst w' r. clear H. cbn [url_info_cache set_cache]. split; [|split].
      * rewrite length_firstn. lia.
      * intros v' H. injection H as <-.
        change maxsize with (S 127). cbn [firstn lru_get].
        now rewrite String.eqb_refl.
      * discriminate.
    + injection H as <- <-.
      rewrite Hb. split; [exact Hlen|]. split; [discriminate|]. auto.
Qed.

Lemma get_url_info_table_witness :
  (List.length (url_info_cache
     (fst (get_url_info Scenario.offline "http://[youtube.com/watch?v=abc"
             (Scenario.start Scenario.empty_disk)))) <= maxsize)%nat /\
  (forall v,
     snd (get_url_info Scenario.offline "http://[youtube.com/watch?v=abc"
            (Scenario.start Scenario.empty_disk)) = Return v ->
     lru_get "http://[youtube.com/watch?v=abc"
       (url_info_cache
          (fst (get_url_info Scenario.offline "http://[youtube.com/watch?v=abc"
                  (Scenario.start Scenario.empty_disk)))) = Some v) /\
  (forall e,
     snd (get_url_info Scenario.offline "http://[youtube.com/watch?v=abc"
            (Scenario.start Scenario.empty_disk)) = Raise e ->
     url_info_cache
       (fst (get_url_info Scenario.offline "http://[youtube.com/watch?v=abc"
               (Scenario.start Scenario.empty_disk)))
     = url_info_cache (Scenario.start Scenario.empty_disk) /\
     lru_get "http://[youtube.com/watch?v=abc"
       (url_info_cache
          (fst (get_url_info Scenario.offline "http://[youtube.com/watch?v=abc"
                  (Scenario.start Scenario.empty_disk)))) = None).
Proof.
  apply (get_url_info_table Scenario.offline "http://[youtube.com/watch?v=abc"
           (Scenario.start Scenario.empty_disk)).
  - cbn. lia.
  - apply surjective_pairing.
Defined.

(** The counting pass is the sequence of classifications, and it returns
    only if each of them returned. *)
Lemma count_playlists_world (rt : runtime) (urls : list string) :
  forall w w1 n,
    count_playlists rt urls w = (w1, Return n) ->
    w1 = classify_all rt urls w /\
    (0 <= n <= Z.of_nat (List.length urls))%Z.
Proof.
  induction urls as [|u urls IH]; intros w w1 n H.
  - cbn in H. injection H as <- <-. cbn. split; [reflexivity | lia].
  - cbn [count_playlists] in H. unfold mbind at 1, is_playlist_url, mbind at 1 in H.
    cbn [classify_all].
    destruct (get_url_info rt u w) as [w0 [[b info]|e]]; [|discriminate].
    unfold ret at 1 in H. cbn [fst] in *. unfold mbind at 1 in H.
    destruct (count_playlists rt urls w0) as [w2 [m|e]] eqn:E; [|discriminate].
    unfold ret in H. injection H as <- <-.
    destruct (IH _ _ _ E) as [-> Hm]. split; [reflexivity|].
    cbn [List.length]. destruct b; lia.
Qed.

Lemma count_playlists_each_returned (rt : runtime) (urls : list string) :
  forall w w1 n pre u post,
    count_playlists rt urls w = (w1, Return n) ->
    urls = (pre ++ u :: post)%list ->
    exists r, snd (get_url_info rt u (classify_all rt pre w)) = Return r.
Proof.
  induction urls as [|x urls IH]; intros w w1 n pre u post H E.
  - destruct pre; discriminate.
  - cbn [count_playlists] in H. unfold mbind at 1, is_playlist_url, mbind at 1 in H.
    destruct (get_url_info rt x w) as [w0 [[b info]|e]] eqn:Ex; [|discriminate].
    unfold ret at 1 in H. unfold mbind at 1 in H.
    destruct (count_playlists rt urls w0) as [w2 [m|e]] eqn:Ec; [|discriminate].
    destruct pre as [|p pre].
    + injection E as <- _. cbn [classify_all]. rewrite Ex. cbn [snd]. eauto.
    + injection E as <- E. cbn [classify_all]. rewrite Ex. cbn [fst].
      eapply IH; eauto.
Qed.

Lemma classify_all_wf (rt : runtime) (urls : list string) :
  forall w, cache_wf w -> cache_wf (classify_all rt urls w).
Proof.
  induction urls as [|u urls IH]; intros w H; [exact H|].
  cbn [classify_all]. apply IH. now apply get_url_info_wf.
Qed.

Lemma classify_all_app (rt : runtime) (l1 l2 : list string) (w : world) :
  classify_all rt (l1 ++ l2) w = classify_all rt l2 (classify_all rt l1 w).
Proof.
  revert w. induction l1 as [|u l1 IH]; intros w; [reflexivity|].
  cbn [app classify_all]. apply IH.
Qed.

(** The counting pass of [download_youtube_content] warms the memo table:
    when there are at most 128 distinct URLs and the pass returned, the
    classification that each download task asks for afterwards is served
    from the table, without a call to the engine; and the playlist count
    lies between zero and the number of URLs. *)
Theorem count_playlists_warms_cache (rt : runtime) (urls : list string)
    (w w1 : world) (n : Z) (u : string) :
  cache_wf w ->
  (List.length (nodup string_dec urls) <= maxsize)%nat ->
  count_playlists rt urls w = (w1, Return n) ->
  In u urls ->
  (0 <= n <= Z.of_nat (List.length urls))%Z /\
  exists w2 r,
    get_url_info rt u w1 = (w2, Return r) /\ calls w2 = calls w1.
Proof.
  intros Hwf Hlen Hc Hin.
  destruct (count_playlists_world rt urls w w1 n Hc) as [-> Hn].
  split; [exact Hn|].
  apply in_split in Hin. destruct Hin as (pre & post & E).
  destruct (count_playlists_each_returned rt urls w _ n pre u post Hc E) as [r Hr].
  rewrite E, classify_all_app. cbn [classify_all].
  set (wp := classify_all rt pre w) in *.
  destruct (get_url_info rt u wp) as [wu ru] eqn:Eu. cbn [snd fst] in *. subst ru.
  set (D := remove string_dec u post).
  assert (HD : (List.length (nodup string_dec D) < maxsize)%nat).
  { assert (Hnd : NoDup (u :: nodup string_dec D)).
    { constructor; [|apply NoDup_nodup].
      intros H. apply nodup_In in H. now apply remove_In in H. }
    assert (Hincl : incl (u :: nodup string_dec D) (nodup string_dec urls)).
    { intros x [<-|Hx]; apply nodup_In; rewrite E.
      - apply in_or_app. right. now left.
      - apply nodup_In in Hx. apply in_remove in Hx. destruct Hx as [Hx _].
        apply in_or_app. right. now right. }
    pose proof (NoDup_incl_length Hnd Hincl) as Hle. cbn [List.length] in Hle.
    unfold maxsize in *. lia. }
  assert (Hmid : Forall (fun x => x = u \/ In x D) post).
  { apply Forall_forall. intros x Hx.
    destruct (string_dec x u) as [->|Hne]; [now left | right].
    now apply in_in_remove. }
  pose proof (cached_after_call rt u r D wp wu
                (classify_all_wf rt pre w Hwf) Eu) as H1.
  pose proof (cached_behind_all rt u r D post HD Hmid wu H1) as H2.
  destruct H2 as (l1 & l2 & Ec & Hnd & _).
  assert (Hfront : ~ In u (keys l1)).
  { rewrite Ec, keys_app in Hnd. cbn in Hnd.
    apply NoDup_remove_2 in Hnd. intros H. apply Hnd, in_or_app. now left. }
  unfold get_url_info.
  rewrite Ec, (lru_get_middle u r l1 l2 Hfront).
  eexists _, r. split; reflexivity.
Qed.

Lemma count_playlists_warms_cache_witness :
  (0 <= 1 <= Z.of_nat (List.length
     ["https://www.youtube.com/watch?v=abc&list=PL1"; "https://youtu.be/abc"]))%Z /\
  exists w2 r,
    get_url_info Scenario.offline "https://youtu.be/abc"
      (fst (count_playlists Scenario.offline
              ["https://www.youtube.com/watch?v=abc&list=PL1"; "https://youtu.be/abc"]
              (Scenario.start Scenario.empty_disk)))
    = (w2, Return r) /\
    calls w2 =
    calls (fst (count_playlists Scenario.offline
                  ["https://www.youtube.com/watch?v=abc&list=PL1";
                   "https://youtu.be/abc"]
                  (Scenario.start Scenario.empty_disk))).
Proof.
  apply (count_playlists_warms_cache Scenario.offline
           ["https://www.youtube.com/watch?v=abc&list=PL1"; "https://youtu.be/abc"]
           (Scenario.start Scenario.empty_disk)).
  - constructor.
  - vm_compute. lia.
  - reflexivity.
  - simpl. tauto.
Defined.

End CacheDiscipline.

(** ** The download task of download.py *)

Module SingleVideoFacts.
Import PyStr PosixPath Py Glob World Download DownloadInput Spec Spec2
  NegotiationFacts FetchFacts PathFacts.

Lemma endswith_app_r (t x b : string) :
  endswith t b = true -> endswith t (x ++ b) = true.
Proof.
  intros H. induction x as [|c x IH]; [exact H|].
  cbn [append endswith]. rewrite IH. apply orb_true_r.
Qed.

Lemma join_endswith (t a b : string) :
  endswith t b = true -> endswith t (join a b) = true.
Proof.
  intros H. unfold join. destruct (startswith "/" b); [exact H|].
  destruct (negb (truthy a) || endswith "/" a).
  - now apply endswith_app_r.
  - apply endswith_app_r. now apply (endswith_app_r t "/").
Qed.

(** In audio mode the engine is opened for the best audio stream only,
    with a single post-processor that extracts mp3 at quality 192, no
    merge format, and an output template that ends in [.mp3], whether the
    URL was classified as a playlist or not. *)
Theorem download_single_video_audio (rt : runtime) (w w' : world)
    (url output_path : string) (thread_id : Z) (res : download_result) :
  download_single_video rt url output_path thread_id true w = (w', Return res) ->
  exists ydl_opts tmpl,
    In (CallOpen ydl_opts) (calls w') /\
    dict_get "format" ydl_opts = Some (VStr "bestaudio/best") /\
    dict_get "postprocessors" ydl_opts
      = Some (VList [VDict [("key", VStr "FFmpegExtractAudio");
                            ("preferredcodec", VStr "mp3");
                            ("preferredquality", VStr "192")]]) /\
    dict_get "merge_output_format" ydl_opts = None /\
    dict_get "outtmpl" ydl_opts = Some (VStr tmpl) /\
    endswith ".mp3" tmpl = true.
Proof.
  intros Hd. unfold download_single_video in Hd.
  destruct (single_video_opts true) as [o ext] eqn:Ho.
  unfold mbind in Hd.
  destruct (get_url_info rt url w) as [w1 [[is_pl info]|e]]; [|discriminate].
  destruct (single_video_fetch_opens rt url thread_id true
              (set_outtmpl output_path ext is_pl o) w1) as [l E].
  rewrite Hd in E. cbn [fst] in E.
  injection Ho as <- <-.
  exists (set_outtmpl output_path "mp3" is_pl (fst (single_video_opts true))).
  destruct is_pl.
  - eexists. split; [rewrite E; apply in_or_app; right; left; reflexivity|].
    repeat split. now apply join_endswith.
  - eexists. split; [rewrite E; apply in_or_app; right; left; reflexivity|].
    repeat split. now apply join_endswith.
Qed.

Lemma download_single_video_audio_witness :
  exists ydl_opts tmpl,
    In (CallOpen ydl_opts)
       (calls (fst (download_single_video Scenario.online "https://youtu.be/abc"
                      "dl" 1 true (Scenario.start Scenario.empty_disk)))) /\
    dict_get "format" ydl_opts = Some (VStr "bestaudio/best") /\
    dict_get "postprocessors" ydl_opts
      = Some (VList [VDict [("key", VStr "FFmpegExtractAudio");
                            ("preferredcodec", VStr "mp3");
                            ("preferredquality", VStr "192")]]) /\
    dict_get "merge_output_format" ydl_opts = None /\
    dict_get "outtmpl" ydl_opts = Some (VStr tmpl) /\
    endswith ".mp3" tmpl = true.
Proof.
  apply (download_single_video_audio Scenario.online
           (Scenario.start Scenario.empty_disk) _ "https://youtu.be/abc" "dl" 1
           (match snd (download_single_video Scenario.online "https://youtu.be/abc"
                         "dl" 1 true (Scenario.start Scenario.empty_disk)) with
            | Return r => r
            | Raise _ => {| r_url := ""; r_success := false; r_message := "" |}
            end)).
  cbn. reflexivity.
Defined.

(** A playlist is checked before it is downloaded: when the fresh
    metadata says playlist and [len(entries)] is zero (or there is no
    [entries] key), the task fails with the empty-playlist message; when
    [entries] has no length, the [TypeError] is caught into an error
    result; in both cases no download call is made. *)
Theorem download_single_video_playlist_guard (rt : runtime) (w w1 : world)
    (url output_path : string) (thread_id : Z) (audio_only is_playlist : bool)
    (cached_info info : dict) :
  get_url_info rt url w = (w1, Return (is_playlist, cached_info)) ->
  let ydl_opts :=
    set_outtmpl output_path (snd (single_video_opts audio_only)) is_playlist
      (fst (single_video_opts audio_only)) in
  let w_in := log (CallExtractInfo url) (log (CallOpen ydl_opts) w1) in
  ydl_open rt w1 ydl_opts = Return tt ->
  ydl_extract_info rt (log (CallOpen ydl_opts) w1) ydl_opts url
    = Return (Some info) ->
  val_eq_str (dict_get "_type" info) "playlist" = true ->
  ydl_close rt w_in = Return tt ->
  (py_len (dict_get_default "entries" (VList []) info) = Return 0%Z ->
   download_single_video rt url output_path thread_id audio_only w =
     (log CallClose w_in,
      Return {| r_url := url; r_success := false;
                r_message := "❌ " ++ thread_tag thread_id ++
                             " Playlist appears to be empty or private" |})) /\
  (forall e,
     py_len (dict_get_default "entries" (VList []) info) = Raise e ->
     download_single_video rt url output_path thread_id audio_only w =
       (log CallClose w_in,
        Return {| r_url := url; r_success := false;
                  r_message := "❌ " ++ thread_tag thread_id ++ " Error: " ++ e |})).
Proof.
  intros Hc ydl_opts w_in Ho He Hpl Hcl.
  rewrite (download_single_video_classified rt _ _ _ _ _ _ _ _ Hc).
  fold ydl_opts.
  split.
  - intros Hlen.
    unfold single_video_fetch, try_except, with_YoutubeDL, single_video_body,
      mbind, extract_info, ret.
    rewrite Ho, He, Hpl, Hlen. cbn [bind]. fold w_in. rewrite Hcl. reflexivity.
  - intros e Hlen.
    unfold single_video_fetch, try_except, with_YoutubeDL, single_video_body,
      mbind, extract_info, ret.
    rewrite Ho, He, Hpl, Hlen. cbn [bind]. fold w_in. rewrite Hcl. reflexivity.
Qed.

Lemma download_single_video_playlist_guard_witness :
  download_single_video Scenario2.empty_playlist "https://youtu.be/x" "dl" 1 false
    (Scenario.start Scenario.empty_disk)
  = (log CallClose
       (log (CallExtractInfo "https://youtu.be/x")
          (log (CallOpen
                  (set_outtmpl "dl" (snd (single_video_opts false)) true
                     (fst (single_video_opts false))))
             (fst (get_url_info Scenario2.empty_playlist "https://youtu.be/x"
                     (Scenario.start Scenario.empty_disk))))),
     Return {| r_url := "https://youtu.be/x"; r_success := false;
               r_message := "❌ " ++ thread_tag 1 ++
                            " Playlist appears to be empty or private" |}).
Proof.
  refine (proj1 (download_single_video_playlist_guard Scenario2.empty_playlist
            (Scenario.start Scenario.empty_disk) _ "https://youtu.be/x" "dl" 1
            false true _
            [("_type", VStr "playlist"); ("title", VStr "Mix"); ("entries", VList [])]
            _ _ _ _ _) _); reflexivity.
Defined.

End SingleVideoFacts.

(** ** Listing formats *)

Module ListFormatsFacts.
Import PyStr PosixPath Py Glob World Download DownloadInput Spec Spec2.

(** [get_available_formats] always returns; it opens one session, asks
    for the metadata of its URL, and leaves the disk alone. *)
Lemma get_available_formats_cases (rt : runtime) (url : string) (w : world) :
  exists w',
    get_available_formats rt url w = (w', Return tt) /\
    fs w' = fs w /\
    (calls w' = (calls w ++ [CallOpen listformats_opts])%list \/
     calls w' = (calls w ++ [CallOpen listformats_opts; CallExtractInfo url;
                             CallClose])%list).
Proof.
  unfold get_available_formats, try_except, with_YoutubeDL, mbind, extract_info, ret.
  destruct (ydl_open rt w listformats_opts) as [[]|e].
  - destruct (ydl_extract_info rt _ listformats_opts url) as [info|e];
      destruct (ydl_close rt _) as [[]|e'];
      eexists; (split; [reflexivity|]); (split; [reflexivity|]);
      right; cbn [calls log]; rewrite <- !app_assoc; reflexivity.
  - eexists. split; [reflexivity|]. split; [reflexivity|]. left. reflexivity.
Qed.

(** With [list_formats] set, [download_youtube_content] looks at the
    first URL only: it never fails on an engine error, downloads nothing
    and does not create the output directory; on an empty list it raises
    the [IndexError] of [urls[0]]. *)
Theorem list_formats_first_url_only (rt : runtime) (urls : list string)
    (output_path : string) (w : world) :
  match urls with
  | [] =>
      download_youtube_content_head rt urls output_path true w
        = (w, Raise "list index out of range")
  | url :: _ =>
      exists w',
        download_youtube_content_head rt urls output_path true w
          = (w', Return None) /\
        fs w' = fs w /\
        (calls w' = (calls w ++ [CallOpen listformats_opts])%list \/
         calls w' = (calls w ++ [CallOpen listformats_opts; CallExtractInfo url;
                                 CallClose])%list)
  end.
Proof.
  destruct urls as [|url rest]; [reflexivity|].
  destruct (get_available_formats_cases rt url w) as (w' & Hg & Hfs & Hc).
  exists w'. unfold download_youtube_content_head, mbind, ret. rewrite Hg. auto.
Qed.

End ListFormatsFacts.

(** ** The fallback, at work *)

Module FallbackWitness.
Import PyStr PosixPath Py Glob World Download Urllib Spec FallbackTotal.

Lemma get_url_info_body_parsable_witness :
  snd (get_url_info_body Scenario.silent
         "https://www.youtube.com/watch?v=abc&list=PL1"
         (Scenario.start Scenario.empty_disk))
  = Return (parse_qs_mem "list" "v=abc&list=PL1", []).
Proof.
  refine (proj2 (proj2 (get_url_info_body_parsable Scenario.silent
            "https://www.youtube.com/watch?v=abc&list=PL1"
            (Scenario.start Scenario.empty_disk)
            {| scheme := "https"; netloc := "www.youtube.com"; path := "/watch";
               query := "v=abc&list=PL1"; fragment := "" |} _)) _ _);
    reflexivity.
Defined.

End FallbackWitness.
